(** * plugin-packaging: the package-version report command, the package list
      command and the polling helper of the 1gp version-create tests

    A shallow embedding of three TypeScript sources:
    - [PackageVersionCreateReportCommand] (run, display),
    - [PackageListCommand] (run, mapRecordsToResults, displayResults),
    - [pollUntilComplete] of test/commands/package1/versionCreate.nut.ts.

    Promises are modelled by their settlement ([Resolved], [Rejected], and
    [Pending] for a recursion that has not settled within the given number of
    invocations); calls to collaborators (the CLI under test, the ux sink, the
    packaging SDK) are recorded in the state that every operation threads. *)

From Stdlib Require Import ZArith Lia Bool DecimalString.
From stdpp Require Import gmap strings list.

Local Open Scope string_scope.
Local Open Scope list_scope.

(** ** JavaScript values that reach a table cell or a template literal *)

Module Js.

Inductive JsVal :=
| JsUndefined
| JsNull
| JsStr (s : string)
| JsBool (b : bool).

(** [`${v}`]: the string a template literal substitutes for a value. *)
Definition template (v : JsVal) : string :=
  match v with
  | JsUndefined => "undefined"
  | JsNull => "null"
  | JsStr s => s
  | JsBool true => "true"
  | JsBool false => "false"
  end.

(** [Array.prototype.join()] on strings, with the default separator. *)
Definition join (l : list string) : string := String.concat "," l.

(** [`${n}`] for a non-negative integer (an array length). *)
Definition template_nat (n : nat) : string := NilZero.string_of_uint (Nat.to_uint n).

(** An [Error] object, as far as callers can tell two of them apart. *)
Record JsError := { name : string; message : string }.

(** How an awaited call ends. [Pending] is a promise that has not settled. *)
Inductive Outcome (A : Type) :=
| Resolved (a : A)
| Rejected (e : JsError)
| Pending.
Arguments Resolved {A} a.
Arguments Rejected {A} e.
Arguments Pending {A}.

(** The ux sink: what a command asked it to print. *)
Inductive UxCall (R : Type) :=
| StyledHeader (text : string)
| Table (data : list R) (columns : list (string * string)).
Arguments StyledHeader {R} text.
Arguments Table {R} data columns.

End Js.

(** ** Collaborators the commands consume *)

(** [Messages.loadMessages(plugin, bundle).getMessage(key)]. *)
Class Messages := { getMessage : string -> string -> string }.

(** [chalk.blue]. *)
Class Chalk := { blue : string -> string }.

(** ** test/commands/package1/versionCreate.nut.ts *)

Module VersionCreateNut.
Import Js.

Record PackageUploadRequest := {
  Id : string;
  MetadataPackageId : string;
  MetadataPackageVersionId : string;
  Status : string;
}.

(** What one run of the CLI under test gives back to [execCmd]:
    its exit code and [jsonOutput?.result]. *)
Record ExecResult := {
  exitCode : Z;
  jsonResult : option PackageUploadRequest;
}.

Inductive Effect :=
| Exec (cmd : string)
| Sleep (ms : Z).

(** The harness state: how many commands ran, and every effect in order. *)
Record Harness := { runs : nat; trace : list Effect }.

Definition start : Harness := {| runs := 0; trace := [] |}.

Definition UnexpectedExitCode (cmd : string) : JsError :=
  {| name := "Error"; message := "Unexpected exit code for command: " +:+ cmd |}.

Section Harness.

(** The CLI under test: the answer of its n-th run (the remote upload request
    evolves between runs). *)
Variable cli : nat -> ExecResult.

(** [execCmd<T>(cmd, { ensureExitCode: 0 }).jsonOutput?.result] *)
Definition execCmd (cmd : string) (h : Harness)
  : Outcome (option PackageUploadRequest) * Harness :=
  let r := cli (runs h) in
  let h' := {| runs := S (runs h); trace := trace h ++ [Exec cmd] |} in
  if (exitCode r =? 0)%Z then (Resolved (jsonResult r), h')
  else (Rejected (UnexpectedExitCode cmd), h').

Definition sleep (ms : Z) (h : Harness) : Harness :=
  {| runs := runs h; trace := trace h ++ [Sleep ms] |}.

Definition getCommand (id : string) : string :=
  "package1:version:create:get -i " +:+ id +:+ " -o 1gp --json".

(** [result?.Status === 'SUCCESS'] *)
Definition isSuccess (result : option PackageUploadRequest) : bool :=
  match result with
  | Some r => String.eqb (Status r) "SUCCESS"
  | None => false
  end.

(** [pollUntilComplete]; [fuel] bounds the number of nested invocations.
    The else branch awaits the recursive call and then falls off the end of
    the function, so its promise resolves with undefined ([None]). *)
Fixpoint pollUntilComplete (fuel : nat) (id : string) (h : Harness)
  : Outcome (option PackageUploadRequest) * Harness :=
  match fuel with
  | 0 => (Pending, h)
  | S fuel' =>
    match execCmd (getCommand id) h with
    | (Resolved result, h1) =>
      if isSuccess result then (Resolved result, h1)
      else
        let h2 := sleep 5000 h1 in
        match pollUntilComplete fuel' id h2 with
        | (Resolved _, h3) => (Resolved None, h3)
        | (Rejected e, h3) => (Rejected e, h3)
        | (Pending, h3) => (Pending, h3)
        end
    | (Rejected e, h1) => (Rejected e, h1)
    | (Pending, h1) => (Pending, h1)
    end
  end.

(** A run after which the helper sleeps and polls again. *)
Definition keepsPolling (r : ExecResult) : bool :=
  (exitCode r =? 0)%Z && negb (isSuccess (jsonResult r)).

(** [n] full rounds of the loop: a poll, then the sleep that follows it. *)
Fixpoint rounds (n : nat) (id : string) : list Effect :=
  match n with
  | 0 => []
  | S n' => Exec (getCommand id) :: Sleep 5000 :: rounds n' id
  end.

End Harness.

(** The settlement of the invocation whose own poll ends the recursion. *)
Definition ownSettlement (id : string) (r : ExecResult) : Outcome (option PackageUploadRequest) :=
  if (exitCode r =? 0)%Z then Resolved (jsonResult r)
  else Rejected (UnexpectedExitCode (getCommand id)).

(** What an enclosing invocation makes of the settlement it awaited. *)
Definition outerSettlement (o : Outcome (option PackageUploadRequest))
  : Outcome (option PackageUploadRequest) :=
  match o with
  | Resolved _ => Resolved None
  | other => other
  end.

(** Polls stand at the even positions of a trace, sleeps at the odd ones. *)
Definition alternates (id : string) (l : list Effect) : Prop :=
  forall i e, l !! i = Some e ->
    e = if Nat.even i then Exec (getCommand id) else Sleep 5000.

(** Statuses of the remote upload request, for the examples. *)
Definition upload (status : string) : ExecResult :=
  {| exitCode := 0;
     jsonResult := Some {| Id := "0HD000000000001"; MetadataPackageId := "033000000000001";
                            MetadataPackageVersionId := "04t000000000001"; Status := status |} |}.

(** Remote upload requests for the examples. *)
Definition errorThenSuccess (n : nat) : ExecResult :=
  match n with 0 => upload "ERROR" | _ => upload "SUCCESS" end.

Definition queuedThenSuccess (n : nat) : ExecResult :=
  match n with 0 => upload "QUEUED" | _ => upload "SUCCESS" end.

Definition alwaysError (n : nat) : ExecResult := upload "ERROR".

End VersionCreateNut.

(** ** The test cases of versionCreate.nut.ts that create a version with --json *)

Module VersionCreateNutTests.
Import Js VersionCreateNut.

(** The variables of the describe block, next to the harness. *)
Record Suite := {
  harness : Harness;
  packageId : option string;
  uploadRequestId : option string;
}.

Definition Test (A : Type) : Type := Suite -> Outcome A * Suite.

#[export] Instance test_ret : MRet Test := fun A a s => (Resolved a, s).

#[export] Instance test_bind : MBind Test := fun A B k m s =>
  match m s with
  | (Resolved a, s') => k a s'
  | (Rejected e, s') => (Rejected e, s')
  | (Pending, s') => (Pending, s')
  end.

Definition AssertionError (message : string) : JsError :=
  {| name := "AssertionError"; message := message |}.

(** How chai shows a value in a message. *)
Definition inspect (v : JsVal) : string :=
  match v with
  | JsStr s => "'" +:+ s +:+ "'"
  | other => template other
  end.

(** [expect(actual).to.equal(expected)] for a string [expected]. *)
Definition expectEqual (actual : JsVal) (expected : string) : Test unit :=
  fun s =>
    match actual with
    | JsStr a =>
      if String.eqb a expected then (Resolved tt, s)
      else (Rejected (AssertionError
              ("expected " +:+ inspect actual +:+ " to equal '" +:+ expected +:+ "'")), s)
    | _ =>
      (Rejected (AssertionError
         ("expected " +:+ inspect actual +:+ " to equal '" +:+ expected +:+ "'")), s)
    end.

(** [expect(actual).to.be.a('string')] *)
Definition expectString (actual : JsVal) : Test unit :=
  fun s =>
    match actual with
    | JsStr _ => (Resolved tt, s)
    | _ =>
      (Rejected (AssertionError ("expected " +:+ inspect actual +:+ " to be a string")), s)
    end.

(** [expect(actual).to.be.true] *)
Definition expectTrue (actual : JsVal) : Test unit :=
  fun s =>
    match actual with
    | JsBool true => (Resolved tt, s)
    | _ =>
      (Rejected (AssertionError ("expected " +:+ inspect actual +:+ " to be true")), s)
    end.

(** [output?.field] *)
Definition field (f : PackageUploadRequest -> string) (output : option PackageUploadRequest)
  : JsVal :=
  match output with
  | Some o => JsStr (f o)
  | None => JsUndefined
  end.

(** [output?.field.startsWith(prefix)] *)
Definition startsWith (f : PackageUploadRequest -> string) (prefix : string)
    (output : option PackageUploadRequest) : JsVal :=
  match output with
  | Some o => JsBool (String.prefix prefix (f o))
  | None => JsUndefined
  end.

(** [`${packageId}`] for the variable of the describe block. *)
Definition packageIdText (s : Suite) : string :=
  match packageId s with
  | Some p => p
  | None => "undefined"
  end.

Definition createJsonCommand (wait : bool) (s : Suite) : string :=
  "package1:version:create -n 1gpPackageNUT -i " +:+ packageIdText s +:+
  (if wait then " --json -w 5 -o 1gp" else " --json -o 1gp").

Section Tests.
Variable cli : nat -> ExecResult.

Definition exec (cmd : string) : Test (option PackageUploadRequest) :=
  fun s =>
    let '(o, h) := execCmd cli cmd (harness s) in
    (o, {| harness := h; packageId := packageId s; uploadRequestId := uploadRequestId s |}).

Definition poll (fuel : nat) (id : string) : Test (option PackageUploadRequest) :=
  fun s =>
    let '(o, h) := pollUntilComplete cli fuel id (harness s) in
    (o, {| harness := h; packageId := packageId s; uploadRequestId := uploadRequestId s |}).

(** [uploadRequestId ??= output?.Id ?? ''] *)
Definition keepOrSetUploadRequestId (output : option PackageUploadRequest) : Test unit :=
  fun s =>
    match uploadRequestId s with
    | Some _ => (Resolved tt, s)
    | None =>
      (Resolved tt,
       {| harness := harness s; packageId := packageId s;
          uploadRequestId := Some (match output with Some o => Id o | None => "" end) |})
    end.


(** it('should create a new 1gp package version ... (json)'); [fuel] bounds
    the invocations of [pollUntilComplete]. *)
Definition createJsonTest (fuel : nat) : Test unit :=
  fun s =>
    (output ← exec (createJsonCommand false s);
     (if negb (isSuccess output) then
        expectEqual (field Status output) "QUEUED";;
        expectString (field Id output);;
        expectString (field MetadataPackageId output);;
        expectString (field MetadataPackageVersionId output);;
        expectTrue (startsWith MetadataPackageVersionId "04t" output);;
        expectTrue (startsWith MetadataPackageId "033" output);;
        poll fuel (template (field Id output));;
        mret tt
      else mret tt);;
     keepOrSetUploadRequestId output) s.

End Tests.

(** The suite after one more command has run. *)
Definition afterCommand (cmd : string) (s : Suite) : Suite :=
  {| harness := {| runs := S (runs (harness s));
                   trace := trace (harness s) ++ [Exec cmd] |};
     packageId := packageId s;
     uploadRequestId := uploadRequestId s |}.

(** A step of a test that leaves the variables of the suite alone. *)
Definition keepsVariables {A} (m : Test A) : Prop :=
  forall s, uploadRequestId (snd (m s)) = uploadRequestId s /\
            packageId (snd (m s)) = packageId s.

(** The suite before its first test: [before] found a package id. *)
Definition fresh1gp : Suite :=
  {| harness := start; packageId := Some "033000000000001"; uploadRequestId := None |}.

End VersionCreateNutTests.

(** ** The report command: PackageVersionCreateReportCommand *)

Module PackageVersionCreateReport.
Import Js.

(** The SDK's [PackageVersionCreateRequestResult], as far as the command reads
    it. [SubscriberPackageVersionId] is a value, since a request that has not
    produced a version has none. *)
Record PackageVersionCreateRequestResult := {
  Id : string;
  Status : string;
  Package2Id : string;
  Package2VersionId : string;
  SubscriberPackageVersionId : JsVal;
  Tag : string;
  Branch : string;
  CreatedDate : string;
  CreatedBy : string;
}.

(** [@salesforce/packaging], as far as the command calls it. *)
Class PackagingSdk := {
  INSTALL_URL_BASE : string;
  convertCamelCaseStringToSentence : string -> string;
  (** what the remote answers to [getCreateVersionReport(id)] *)
  createVersionReport : string -> JsError + PackageVersionCreateRequestResult;
}.

Record Flags := { packagecreaterequestid : string }.

(** A row of the key/value table. *)
Record Row := { key : string; value : JsVal }.

(** The state a run of the command threads: the objects it holds references
    to, the ids it asked the SDK about, and what it sent to the ux sink. *)
Record World := {
  objects : gmap positive PackageVersionCreateRequestResult;
  requests : list string;
  ux : list (UxCall Row);
}.

Definition newWorld : World := {| objects := ∅; requests := []; ux := [] |}.

Definition Cmd (A : Type) : Type := World -> Outcome A * World.

#[export] Instance cmd_ret : MRet Cmd := fun A a w => (Resolved a, w).

#[export] Instance cmd_bind : MBind Cmd := fun A B k m w =>
  match m w with
  | (Resolved a, w') => k a w'
  | (Rejected e, w') => (Rejected e, w')
  | (Pending, w') => (Pending, w')
  end.

#[export] Instance cmd_throw : MThrow JsError Cmd := fun A e w => (Rejected e, w).

Definition TypeError : JsError :=
  {| name := "TypeError"; message := "Cannot read properties of undefined" |}.

(** Following a reference. One that names no object does not arise from
    [run]; reading through it throws, as a property read on undefined does. *)
Definition deref (l : positive) : Cmd PackageVersionCreateRequestResult :=
  fun w => match objects w !! l with
           | Some r => (Resolved r, w)
           | None => (Rejected TypeError, w)
           end.

Definition styledHeader (text : string) : Cmd unit :=
  fun w => (Resolved tt,
            {| objects := objects w; requests := requests w;
               ux := ux w ++ [StyledHeader text] |}).

Definition table (data : list Row) (columns : list (string * string)) : Cmd unit :=
  fun w => (Resolved tt,
            {| objects := objects w; requests := requests w;
               ux := ux w ++ [Table data columns] |}).

Section Command.
Context `{Messages, Chalk, PackagingSdk}.

Definition messages := getMessage "package_version_create_report".
Definition pvclMessages := getMessage "package_version_create_list".
Definition plMessages := getMessage "package_list".

(** [packageVersion.getCreateVersionReport(id)]: one request to the remote;
    its answer is a fresh object, or the request's error. *)
Definition getCreateVersionReport (id : string) : Cmd positive :=
  fun w =>
    let w1 := {| objects := objects w; requests := requests w ++ [id]; ux := ux w |} in
    match createVersionReport id with
    | inl e => (Rejected e, w1)
    | inr r =>
      let l := fresh (dom (objects w1)) in
      (Resolved l, {| objects := <[l:=r]> (objects w1); requests := requests w1; ux := ux w1 |})
    end.

(** The const [installUrlValue] of [display]. *)
Definition installUrlValue (record : PackageVersionCreateRequestResult) : string :=
  if String.eqb (Status record) "Success"
  then INSTALL_URL_BASE +:+ template (SubscriberPackageVersionId record)
  else "".

(** The const [data] of [display]. *)
Definition data (record : PackageVersionCreateRequestResult) : list Row :=
  [ {| key := pvclMessages "id"; value := JsStr (Id record) |};
    {| key := pvclMessages "status";
       value := JsStr (convertCamelCaseStringToSentence (Status record)) |};
    {| key := pvclMessages "packageId"; value := JsStr (Package2Id record) |};
    {| key := pvclMessages "packageVersionId"; value := JsStr (Package2VersionId record) |};
    {| key := pvclMessages "subscriberPackageVersionId";
       value := SubscriberPackageVersionId record |};
    {| key := pvclMessages "tag"; value := JsStr (Tag record) |};
    {| key := pvclMessages "branch"; value := JsStr (Branch record) |};
    {| key := "Created Date"; value := JsStr (CreatedDate record) |};
    {| key := pvclMessages "installUrl"; value := JsStr (installUrlValue record) |};
    {| key := plMessages "createdBy"; value := JsStr (CreatedBy record) |} ].

Definition display (record : positive) : Cmd unit :=
  r ← deref record;
  styledHeader (blue "Package Version Create Request");;
  table (data r) [("key", "Name"); ("value", "Value")].

(** What [display] sends to the ux sink for a record. *)
Definition rendering (r : PackageVersionCreateRequestResult) : list (UxCall Row) :=
  [ StyledHeader (blue "Package Version Create Request");
    Table (data r) [("key", "Name"); ("value", "Value")] ].

(** The labels of the report's rows, in the order of the table. *)
Definition reportLabels : list string :=
  [ pvclMessages "id"; pvclMessages "status"; pvclMessages "packageId";
    pvclMessages "packageVersionId"; pvclMessages "subscriberPackageVersionId";
    pvclMessages "tag"; pvclMessages "branch"; "Created Date";
    pvclMessages "installUrl"; plMessages "createdBy" ].

(** [run]. Building the [PackageVersion] from the hub connection has no
    effect of its own. *)
Definition run (flags : Flags) : Cmd positive :=
  result ← getCreateVersionReport (packagecreaterequestid flags);
  display result;;
  mret result.

End Command.

End PackageVersionCreateReport.

(** ** The list command: PackageListCommand *)

(** [PackagingSObjects.Package2], as far as the command reads it. *)
Module PackagingSObjects.

Record Package2 := {
  Id : string;
  SubscriberPackageId : string;
  Name : string;
  Description : string;
  NamespacePrefix : string;
  ContainerOptions : string;
  ConvertedFromPackageId : string;
  IsOrgDependent : bool;
  PackageErrorUsername : string;
  AppAnalyticsEnabled : bool;
  CreatedById : string;
  IsDeprecated : bool;
}.

End PackagingSObjects.

Module PackageList.
Import Js.

Record Package2Result := {
  Id : string;
  SubscriberPackageId : string;
  Name : string;
  Description : string;
  NamespacePrefix : string;
  ContainerOptions : string;
  ConvertedFromPackageId : string;
  Alias : string;
  IsOrgDependent : string;
  PackageErrorUsername : string;
  AppAnalyticsEnabled : bool;
  CreatedBy : string;
}.

(** [this.project], as far as the command calls it. *)
Class SfProject := { getAliasesFromPackageId : string -> list string }.

(** The parsed flags [run] reads, and the api version of the hub connection. *)
Record Flags := { verbose : option bool; apiVersion : string }.

(** The command object: its [results] field and what it sent to the ux sink. *)
Record Command := {
  results : list Package2Result;
  ux : list (UxCall Package2Result);
}.

(** [private results: Package2Result[] = []] *)
Definition newCommand : Command := {| results := []; ux := [] |}.

Section Command.
Context `{Messages, Chalk, SfProject}.

Definition messages := getMessage "package_list".

(** The records the command keeps. *)
Definition notDeprecated (p : PackagingSObjects.Package2) : bool :=
  negb (PackagingSObjects.IsDeprecated p).

(** The arrow function [mapRecordsToResults] maps over the kept records. *)
Definition toResult (record : PackagingSObjects.Package2) : Package2Result :=
  {| Id := PackagingSObjects.Id record;
     SubscriberPackageId := PackagingSObjects.SubscriberPackageId record;
     Name := PackagingSObjects.Name record;
     Description := PackagingSObjects.Description record;
     NamespacePrefix := PackagingSObjects.NamespacePrefix record;
     ContainerOptions := PackagingSObjects.ContainerOptions record;
     ConvertedFromPackageId := PackagingSObjects.ConvertedFromPackageId record;
     Alias := join (getAliasesFromPackageId (PackagingSObjects.Id record));
     IsOrgDependent :=
       if String.eqb (PackagingSObjects.ContainerOptions record) "Managed" then "N/A"
       else if PackagingSObjects.IsOrgDependent record then "Yes" else "No";
     PackageErrorUsername := PackagingSObjects.PackageErrorUsername record;
     AppAnalyticsEnabled := PackagingSObjects.AppAnalyticsEnabled record;
     CreatedBy := PackagingSObjects.CreatedById record |}.

(** [mapRecordsToResults]; [None] is a falsy [records]. *)
Definition mapRecordsToResults (records : option (list PackagingSObjects.Package2))
    (this : Command) : Command :=
  match records with
  | Some rs =>
    if Nat.ltb 0 (length rs) then
      {| results :=
           List.map toResult
             (List.filter (fun record => Bool.eqb (PackagingSObjects.IsDeprecated record) false) rs);
         ux := ux this |}
    else this
  | None => this
  end.

(** [displayResults(verbose = false, apiVersion)]; strings compare by code
    unit, as [>=] does on two strings. *)
Definition displayResults (verbose : option bool) (apiVersion : string)
    (this : Command) : Command :=
  let verbose := default false verbose in
  let columns :=
    [ ("NamespacePrefix", messages "namespace");
      ("Name", messages "name");
      ("Id", messages "id");
      ("Alias", messages "alias");
      ("Description", messages "description");
      ("ContainerOptions", messages "package-type") ] in
  let columns :=
    if verbose then
      columns ++
      [ ("SubscriberPackageId", messages "package-id");
        ("ConvertedFromPackageId", messages "convertedFromPackageId");
        ("IsOrgDependent", messages "isOrgDependent");
        ("PackageErrorUsername", messages "error-notification-username") ] ++
      (if String.leb "59.0" apiVersion
       then [ ("AppAnalyticsEnabled", messages "app-analytics-enabled") ] else []) ++
      [ ("CreatedBy", messages "createdBy") ]
    else columns in
  {| results := results this;
     ux := ux this ++
           [ StyledHeader (blue ("Packages [" +:+ template_nat (length (results this)) +:+ "]"));
             Table (results this) columns ] |}.

(** [run]: [queryResult] is what [Package.list(connection)] resolved with. *)
Definition run (flags : Flags) (queryResult : option (list PackagingSObjects.Package2))
    (this : Command) : list Package2Result * Command :=
  let this := mapRecordsToResults queryResult this in
  let this := displayResults (verbose flags) (apiVersion flags) this in
  (results this, this).

End Command.

End PackageList.

(** ** Collaborators for the examples

    The message files, chalk and the SDK are not part of the sources above;
    the examples run the commands against these stand-ins. *)

Module Fixtures.
Import Js.

Fixpoint lookupMessage (catalog : list (string * string)) (key : string) : string :=
  match catalog with
  | [] => key
  | (k, text) :: rest => if String.eqb k key then text else lookupMessage rest key
  end.

Definition catalog : list (string * string) :=
  [ ("id", "Id"); ("status", "Status"); ("packageId", "Package Id");
    ("packageVersionId", "Package Version Id");
    ("subscriberPackageVersionId", "Subscriber Package Version Id");
    ("tag", "Tag"); ("branch", "Branch"); ("installUrl", "Install URL");
    ("createdBy", "Created By") ].

Definition englishMessages : Messages :=
  {| getMessage := fun bundle key => lookupMessage catalog key |}.

Definition plainChalk : Chalk := {| blue := fun text => text |}.

Definition succeeded : PackageVersionCreateReport.PackageVersionCreateRequestResult :=
  {| PackageVersionCreateReport.Id := "08c000000000001";
     PackageVersionCreateReport.Status := "Success";
     PackageVersionCreateReport.Package2Id := "0Ho000000000001";
     PackageVersionCreateReport.Package2VersionId := "05i000000000001";
     PackageVersionCreateReport.SubscriberPackageVersionId := JsStr "04t000000000001";
     PackageVersionCreateReport.Tag := "";
     PackageVersionCreateReport.Branch := "";
     PackageVersionCreateReport.CreatedDate := "2022-11-03 09:21";
     PackageVersionCreateReport.CreatedBy := "005000000000001" |}.

Definition queued : PackageVersionCreateReport.PackageVersionCreateRequestResult :=
  {| PackageVersionCreateReport.Id := "08c000000000002";
     PackageVersionCreateReport.Status := "Queued";
     PackageVersionCreateReport.Package2Id := "0Ho000000000001";
     PackageVersionCreateReport.Package2VersionId := "05i000000000002";
     PackageVersionCreateReport.SubscriberPackageVersionId := JsNull;
     PackageVersionCreateReport.Tag := "";
     PackageVersionCreateReport.Branch := "";
     PackageVersionCreateReport.CreatedDate := "2022-11-03 09:25";
     PackageVersionCreateReport.CreatedBy := "005000000000001" |}.

Definition NotFoundError : JsError :=
  {| name := "NotFoundError"; message := "no such package version create request" |}.

(** A remote that knows two requests. *)
Definition sdk : PackageVersionCreateReport.PackagingSdk :=
  {| PackageVersionCreateReport.INSTALL_URL_BASE :=
       "https://login.salesforce.com/packaging/installPackage.apexp?p0=";
     PackageVersionCreateReport.convertCamelCaseStringToSentence := fun s => s;
     PackageVersionCreateReport.createVersionReport := fun id =>
       if String.eqb id "08c000000000001" then inr succeeded
       else if String.eqb id "08c000000000002" then inr queued
       else inl NotFoundError |}.

(** A world that already holds the two records. *)
Definition twoRecords : PackageVersionCreateReport.World :=
  {| PackageVersionCreateReport.objects := {[ 1%positive := succeeded; 2%positive := queued ]};
     PackageVersionCreateReport.requests := [];
     PackageVersionCreateReport.ux := [] |}.

(** A second world, holding an equal record under another reference. *)
Definition laterWorld : PackageVersionCreateReport.World :=
  {| PackageVersionCreateReport.objects := {[ 7%positive := succeeded ]};
     PackageVersionCreateReport.requests := ["08c000000000001"];
     PackageVersionCreateReport.ux := [StyledHeader "earlier output"] |}.

Definition package (id container : string) (orgDependent deprecated : bool)
  : PackagingSObjects.Package2 :=
  {| PackagingSObjects.Id := id;
     PackagingSObjects.SubscriberPackageId := "033000000000001";
     PackagingSObjects.Name := "pkg";
     PackagingSObjects.Description := "";
     PackagingSObjects.NamespacePrefix := "";
     PackagingSObjects.ContainerOptions := container;
     PackagingSObjects.ConvertedFromPackageId := "";
     PackagingSObjects.IsOrgDependent := orgDependent;
     PackagingSObjects.PackageErrorUsername := "";
     PackagingSObjects.AppAnalyticsEnabled := false;
     PackagingSObjects.CreatedById := "005000000000001";
     PackagingSObjects.IsDeprecated := deprecated |}.

Definition project : PackageList.SfProject :=
  {| PackageList.getAliasesFromPackageId := fun id => [] |}.

Definition quiet : PackageList.Flags :=
  {| PackageList.verbose := None; PackageList.apiVersion := "58.0" |}.

End Fixtures.

(** ** What an observer reads off a finished run *)

Module Observations.
Import Js.

(** The time a trace of the polling helper spent asleep, in ms. *)
Fixpoint slept (tr : list VersionCreateNut.Effect) : Z :=
  match tr with
  | [] => 0
  | VersionCreateNut.Sleep ms :: rest => ms + slept rest
  | VersionCreateNut.Exec _ :: rest => slept rest
  end.

(** The fields of the columns of the last table the list command printed. *)
Definition columnsShown (this : PackageList.Command) : list string :=
  match last (PackageList.ux this) with
  | Some (Table _ columns) => List.map fst columns
  | _ => []
  end.

End Observations.

(** ** More answers of the CLI under test, for the examples *)

Module MoreFixtures.
Import Js VersionCreateNut VersionCreateNutTests.

(** An upload that is in progress twice, then a CLI that fails. *)
Definition inProgressThenFails (n : nat) : VersionCreateNut.ExecResult :=
  match n with
  | 0 | 1 => upload "IN_PROGRESS"
  | _ => {| exitCode := 1; jsonResult := None |}
  end.

(** The upload request that [upload] answers with. *)
Definition request (status : string) : PackageUploadRequest :=
  {| Id := "0HD000000000001"; MetadataPackageId := "033000000000001";
     MetadataPackageVersionId := "04t000000000001"; Status := status |}.

(** A create command that answers QUEUED, then an upload that is in progress
    once and succeeds. *)
Definition queuedInProgressSuccess (n : nat) : ExecResult :=
  match n with
  | 0 => upload "QUEUED"
  | 1 => upload "IN_PROGRESS"
  | _ => upload "SUCCESS"
  end.

(** A create command that answers QUEUED, then an upload that ended in ERROR. *)
Definition queuedThenError (n : nat) : ExecResult :=
  match n with
  | 0 => upload "QUEUED"
  | _ => upload "ERROR"
  end.

(** The suite after an earlier test has set uploadRequestId. *)
Definition laterSuite : Suite :=
  {| harness := start; packageId := Some "033000000000001";
     uploadRequestId := Some "0HD00000000000A" |}.

End MoreFixtures.

(** * Properties *)

(** ** The polling helper *)

Section NutFacts.
Import Js VersionCreateNut.

Variable cli : nat -> ExecResult.
Variable id : string.

Lemma keepsPolling_true r :
  keepsPolling r = true -> (exitCode r =? 0)%Z = true /\ isSuccess (jsonResult r) = false.
Proof.
  unfold keepsPolling. intros H. apply andb_true_iff in H as [H1 H2].
  split; [exact H1|]. now apply negb_true_iff in H2.
Qed.

Lemma pollUntilComplete_step fuel h :
  keepsPolling (cli (runs h)) = true ->
  pollUntilComplete cli (S fuel) id h =
  (let '(o, h') := pollUntilComplete cli fuel id
                     (sleep 5000 {| runs := S (runs h); trace := trace h ++ [Exec (getCommand id)] |}) in
   (outerSettlement o, h')).
Proof.
  intros H. apply keepsPolling_true in H as [He Hs].
  cbn [pollUntilComplete]. unfold execCmd. rewrite He, Hs.
  destruct (pollUntilComplete cli fuel id _) as [[r|e|] h']; reflexivity.
Qed.

Lemma pollUntilComplete_stop fuel h :
  keepsPolling (cli (runs h)) = false ->
  pollUntilComplete cli (S fuel) id h =
  (ownSettlement id (cli (runs h)),
   {| runs := S (runs h); trace := trace h ++ [Exec (getCommand id)] |}).
Proof.
  unfold keepsPolling, ownSettlement. intros H.
  cbn [pollUntilComplete]. unfold execCmd.
  destruct (exitCode (cli (runs h)) =? 0)%Z; [|reflexivity].
  cbn in H. apply negb_false_iff in H. now rewrite H.
Qed.

Lemma rounds_snoc n :
  rounds (S n) id = rounds n id ++ [Exec (getCommand id); Sleep 5000].
Proof. induction n as [|n IH]; [reflexivity|]. cbn [rounds] in *. now rewrite IH at 1. Qed.

Lemma length_rounds n : length (rounds n id) = 2 * n.
Proof. induction n as [|n IH]; cbn [rounds length]; lia. Qed.

(** While every poll asks for another round, the recursion is still pending
    after [fuel] invocations, having polled and slept [fuel] times. *)
Lemma pollUntilComplete_pending fuel : forall h,
  (forall i, i < fuel -> keepsPolling (cli (runs h + i)) = true) ->
  pollUntilComplete cli fuel id h =
  (Pending, {| runs := runs h + fuel; trace := trace h ++ rounds fuel id |}).
Proof.
  induction fuel as [|fuel IH]; intros h H.
  - cbn. rewrite Nat.add_0_r, app_nil_r. now destruct h.
  - rewrite pollUntilComplete_step by (specialize (H 0); rewrite Nat.add_0_r in H; apply H; lia).
    rewrite IH.
    + cbn. f_equal. f_equal; [lia|]. now rewrite <- !app_assoc.
    + intros i Hi. cbn. specialize (H (S i)). rewrite Nat.add_succ_r in H. apply H. lia.
Qed.

(** The first poll that does not ask for another round settles the recursion. *)
Lemma pollUntilComplete_settles k : forall fuel h,
  k < fuel ->
  (forall i, i < k -> keepsPolling (cli (runs h + i)) = true) ->
  keepsPolling (cli (runs h + k)) = false ->
  pollUntilComplete cli fuel id h =
  (Nat.iter k outerSettlement (ownSettlement id (cli (runs h + k))),
   {| runs := runs h + S k; trace := trace h ++ rounds k id ++ [Exec (getCommand id)] |}).
Proof.
  induction k as [|k IH]; intros fuel h Hk Hbefore Hstop.
  - destruct fuel as [|fuel]; [lia|].
    rewrite Nat.add_0_r in Hstop. rewrite pollUntilComplete_stop by exact Hstop.
    cbn. rewrite Nat.add_0_r. do 2 f_equal. lia.
  - destruct fuel as [|fuel]; [lia|].
    rewrite pollUntilComplete_step
      by (specialize (Hbefore 0); rewrite Nat.add_0_r in Hbefore; apply Hbefore; lia).
    rewrite (IH fuel).
    + cbn. rewrite Nat.add_succ_r. f_equal. f_equal; [lia|]. now rewrite <- !app_assoc.
    + lia.
    + intros i Hi. cbn. specialize (Hbefore (S i)). rewrite Nat.add_succ_r in Hbefore.
      apply Hbefore. lia.
    + cbn. now rewrite Nat.add_succ_r in Hstop.
Qed.

Lemma outerSettlement_not_pending k o :
  o <> Pending -> Nat.iter k outerSettlement o <> Pending.
Proof.
  intros H. induction k as [|k IH]; [exact H|].
  change (Nat.iter (S k) outerSettlement o)
    with (outerSettlement (Nat.iter k outerSettlement o)).
  destruct (Nat.iter k outerSettlement o); cbn; congruence.
Qed.

Lemma ownSettlement_not_pending r : ownSettlement id r <> Pending.
Proof. unfold ownSettlement. destruct (exitCode r =? 0)%Z; discriminate. Qed.

Lemma ownSettlement_rejected r e :
  ownSettlement id r = Rejected e -> e = UnexpectedExitCode (getCommand id).
Proof.
  unfold ownSettlement. destruct (exitCode r =? 0)%Z; intros H; [discriminate H|].
  now inversion H.
Qed.

Lemma outerSettlement_rejected k o e :
  Nat.iter k outerSettlement o = Rejected e -> o = Rejected e.
Proof.
  induction k as [|k IH]; [auto|].
  change (Nat.iter (S k) outerSettlement o)
    with (outerSettlement (Nat.iter k outerSettlement o)).
  destruct (Nat.iter k outerSettlement o); cbn; intros H; try discriminate H.
  apply IH. exact H.
Qed.

Lemma outerSettlement_resolved k v :
  exists v', Nat.iter k outerSettlement (Resolved v) = Resolved v'.
Proof.
  induction k as [|k [v' IH]]; [now exists v|].
  exists None.
  change (Nat.iter (S k) outerSettlement (Resolved v))
    with (outerSettlement (Nat.iter k outerSettlement (Resolved v))).
  now rewrite IH.
Qed.

(** The same, for a run from the fresh harness. *)
Lemma pollUntilComplete_settles_start k fuel :
  k < fuel ->
  (forall i, i < k -> keepsPolling (cli i) = true) ->
  keepsPolling (cli k) = false ->
  pollUntilComplete cli fuel id start =
  (Nat.iter k outerSettlement (ownSettlement id (cli k)),
   {| runs := S k; trace := rounds k id ++ [Exec (getCommand id)] |}).
Proof. exact (pollUntilComplete_settles k fuel start). Qed.

Lemma pollUntilComplete_pending_start fuel :
  (forall i, i < fuel -> keepsPolling (cli i) = true) ->
  pollUntilComplete cli fuel id start =
  (Pending, {| runs := fuel; trace := rounds fuel id |}).
Proof. exact (pollUntilComplete_pending fuel start). Qed.

(** A bounded search for the first poll that ends the loop. *)
Lemma first_stop (n : nat) (f : nat -> ExecResult) :
  (forall i, i < n -> keepsPolling (f i) = true) \/
  (exists k, k < n /\ keepsPolling (f k) = false /\
             forall i, i < k -> keepsPolling (f i) = true).
Proof.
  induction n as [|n [IH|(k & Hk & Hs & Hb)]].
  - left. intros i Hi. lia.
  - destruct (keepsPolling (f n)) eqn:E.
    + left. intros i Hi. destruct (decide (i = n)) as [->|]; [exact E|apply IH; lia].
    + right. exists n. repeat split; [lia|exact E|exact IH].
  - right. exists k. repeat split; [lia|exact Hs|exact Hb].
Qed.

End NutFacts.

Section NutTraces.
Import Js VersionCreateNut.

Variable id : string.

Lemma alternates_round l :
  alternates id l -> alternates id (Exec (getCommand id) :: Sleep 5000 :: l).
Proof.
  intros H [|[|i]] e He; cbn in He.
  - now inversion He.
  - now inversion He.
  - change (Nat.even (S (S i))) with (Nat.even i). now apply H.
Qed.

Lemma alternates_rounds n tl :
  alternates id tl -> alternates id (rounds n id ++ tl).
Proof.
  intros H. induction n as [|n IH]; [exact H|].
  cbn [rounds app]. now apply alternates_round.
Qed.

Lemma alternates_nil : alternates id [].
Proof. intros i e He. discriminate He. Qed.

Lemma alternates_poll : alternates id [Exec (getCommand id)].
Proof. intros [|i] e He; [now inversion He|discriminate He]. Qed.

Lemma lookup_rounds n tl p :
  p < n ->
  (rounds n id ++ tl) !! (2 * p) = Some (Exec (getCommand id)) /\
  (rounds n id ++ tl) !! (2 * p + 1) = Some (Sleep 5000).
Proof.
  revert p. induction n as [|n IH]; intros p Hp; [lia|].
  destruct p as [|p]; [now split|].
  replace (2 * S p) with (S (S (2 * p))) by lia.
  cbn [rounds app Nat.add]. apply IH. lia.
Qed.

Lemma lookup_rounds_end n tl :
  (rounds n id ++ tl) !! (2 * n) = tl !! 0.
Proof.
  rewrite lookup_app_r by (rewrite length_rounds; lia).
  rewrite length_rounds. now rewrite Nat.sub_diag.
Qed.

End NutTraces.

Section NutClaims.
Import Js VersionCreateNut.

(** Every run of the helper from a fresh harness is one of two: still pending
    after [fuel] full rounds, or settled by the first poll that ends the loop. *)
Lemma pollUntilComplete_cases cli id fuel :
  (pollUntilComplete cli fuel id start =
     (Pending, {| runs := fuel; trace := rounds fuel id |}) /\
   forall i, i < fuel -> keepsPolling (cli i) = true) \/
  (exists k, k < fuel /\
     pollUntilComplete cli fuel id start =
       (Nat.iter k outerSettlement (ownSettlement id (cli k)),
        {| runs := S k; trace := rounds k id ++ [Exec (getCommand id)] |}) /\
     keepsPolling (cli k) = false /\
     forall i, i < k -> keepsPolling (cli i) = true).
Proof.
  destruct (first_stop fuel cli) as [Hall|(k & Hk & Hstop & Hbefore)].
  - left. split; [|exact Hall]. now apply pollUntilComplete_pending_start.
  - right. exists k. repeat split; [exact Hk| |exact Hstop|exact Hbefore].
    now apply pollUntilComplete_settles_start.
Qed.

(** C1, as stated, fails. With the first poll answering ERROR (a failure
    state) the helper does not return that record: it sleeps, polls again and
    resolves with undefined; no number of invocations makes it return the
    ERROR record. With one QUEUED poll before the SUCCESS poll the value it
    resolves with is undefined, not the SUCCESS record. *)
Lemma pollUntilComplete_terminal_record_counterexample :
  pollUntilComplete errorThenSuccess 3 "0HD000000000001" start =
    (Resolved None,
     {| runs := 2;
        trace := [Exec (getCommand "0HD000000000001"); Sleep 5000;
                  Exec (getCommand "0HD000000000001")] |}) /\
  ~ (exists fuel h,
       pollUntilComplete errorThenSuccess fuel "0HD000000000001" start =
         (Resolved (jsonResult (errorThenSuccess 0)), h)) /\
  jsonResult (queuedThenSuccess 1) <> None /\
  fst (pollUntilComplete queuedThenSuccess 3 "0HD000000000001" start) = Resolved None.
Proof.
  split; [reflexivity|]. split; [|split; [discriminate|reflexivity]].
  intros (fuel & h & H).
  destruct fuel as [|[|fuel]]; [discriminate H|discriminate H|].
  rewrite (pollUntilComplete_settles_start errorThenSuccess _ 1 (S (S fuel))) in H.
  - discriminate H.
  - lia.
  - intros i Hi. assert (i = 0) as -> by lia. reflexivity.
  - reflexivity.
Qed.

(** C1 (amended). SUCCESS is the only status that ends the loop. When poll
    [k] is the first to answer SUCCESS (the earlier ones exited with 0 and any
    other status, a failure status included), the helper settles at that poll:
    [k + 1] polls, [k] sleeps, nothing after the last poll. When that poll is
    the first one, the value it resolves with is that SUCCESS record. *)
Theorem pollUntilComplete_returns_at_first_success cli id k fuel r :
  (forall i, i < k -> keepsPolling (cli i) = true) ->
  exitCode (cli k) = 0%Z ->
  jsonResult (cli k) = Some r ->
  Status r = "SUCCESS" ->
  k < fuel ->
  exists v h',
    pollUntilComplete cli fuel id start = (Resolved v, h') /\
    runs h' = S k /\
    trace h' = rounds k id ++ [Exec (getCommand id)] /\
    (k = 0 -> v = Some r).
Proof.
  intros Hbefore Hexit Hjson Hstatus Hk.
  assert (Hstop : keepsPolling (cli k) = false).
  { unfold keepsPolling. rewrite Hexit, Hjson. cbn. now rewrite Hstatus. }
  assert (Hown : ownSettlement id (cli k) = Resolved (Some r)).
  { unfold ownSettlement. now rewrite Hexit, Hjson. }
  rewrite (pollUntilComplete_settles_start cli id k fuel Hk Hbefore Hstop), Hown.
  destruct (outerSettlement_resolved k (Some r)) as [v Hv].
  exists v. eexists. rewrite Hv. repeat split.
  intros ->. cbn in Hv. now inversion Hv.
Qed.

Lemma pollUntilComplete_returns_at_first_success_witness :
  exists v h',
    pollUntilComplete queuedThenSuccess 5 "0HD000000000001" start = (Resolved v, h') /\
    runs h' = 2 /\
    trace h' = rounds 1 "0HD000000000001" ++ [Exec (getCommand "0HD000000000001")] /\
    (1 = 0 -> v = jsonResult (upload "SUCCESS")).
Proof.
  apply (pollUntilComplete_returns_at_first_success queuedThenSuccess
           "0HD000000000001" 1 5).
  - intros i Hi. assert (i = 0) as -> by lia. reflexivity.
  - reflexivity.
  - reflexivity.
  - reflexivity.
  - lia.
Defined.

Example pollUntilComplete_first_poll_success :
  pollUntilComplete (fun _ => upload "SUCCESS") 1 "0HD000000000001" start =
  (Resolved (jsonResult (upload "SUCCESS")),
   {| runs := 1; trace := [Exec (getCommand "0HD000000000001")] |}).
Proof. reflexivity. Qed.

Example pollUntilComplete_exit_code :
  fst (pollUntilComplete
         (fun n => match n with
                   | 0 => upload "IN_PROGRESS"
                   | _ => {| exitCode := 1; jsonResult := None |}
                   end)
         3 "0HD000000000001" start) =
  Rejected (UnexpectedExitCode (getCommand "0HD000000000001")).
Proof. reflexivity. Qed.

(** C2, as stated, fails: an upload request whose every poll answers ERROR
    keeps the helper polling; it is pending after any number of invocations. *)
Lemma pollUntilComplete_bounded_counterexample :
  ~ (exists fuel,
       fst (pollUntilComplete alwaysError fuel "0HD000000000001" start) <> Pending).
Proof.
  intros [fuel H]. apply H.
  now rewrite (pollUntilComplete_pending_start alwaysError "0HD000000000001" fuel).
Qed.

(** C2 (amended). The helper takes no wait budget and raises no timeout. It
    settles if and only if some poll answers SUCCESS or the polled command
    exits with a code other than 0; the only error it rejects with is the one
    of that exit code. While every poll answers another status (ERROR
    included) it is pending after any number of invocations. *)
Theorem pollUntilComplete_settles_iff cli id :
  ((exists fuel, fst (pollUntilComplete cli fuel id start) <> Pending) <->
   (exists k, keepsPolling (cli k) = false)) /\
  (forall fuel e, fst (pollUntilComplete cli fuel id start) = Rejected e ->
     e = UnexpectedExitCode (getCommand id)).
Proof.
  split; [split|].
  - intros [fuel H].
    destruct (pollUntilComplete_cases cli id fuel) as [[E _]|(k & _ & _ & Hstop & _)].
    + rewrite E in H. now contradiction H.
    + now exists k.
  - intros [k Hk].
    destruct (first_stop (S k) cli) as [Hall|(j & Hj & Hstop & Hbefore)].
    + rewrite Hall in Hk by lia. discriminate Hk.
    + exists (S j).
      rewrite (pollUntilComplete_settles_start cli id j (S j)) by (assumption || lia).
      apply outerSettlement_not_pending, ownSettlement_not_pending.
  - intros fuel e H.
    destruct (pollUntilComplete_cases cli id fuel) as [[E _]|(k & _ & E & _ & _)];
      rewrite E in H; [discriminate H|].
    apply outerSettlement_rejected in H. now apply ownSettlement_rejected in H.
Qed.

(** A poll that was issued and asks for another round is followed by the next
    poll, as long as the bound on invocations allows one more. *)
Lemma pollUntilComplete_polls_again cli id fuel p :
  let h' := snd (pollUntilComplete cli fuel id start) in
  p < runs h' -> keepsPolling (cli p) = true -> S p < fuel -> S p < runs h'.
Proof.
  intros h'. subst h'.
  destruct (pollUntilComplete_cases cli id fuel)
    as [[E Hall]|(k & Hk & E & Hstop & Hbefore)]; rewrite E; cbn [snd runs];
    intros Hp Hkeep Hfuel; [exact Hfuel|].
  destruct (decide (p = k)) as [->|Hne]; [congruence|lia].
Qed.

(** C3. In any run of the helper, whenever poll [p + 1] was issued, poll [p]
    had not answered SUCCESS, and exactly one sleep, of 5000 ms, stands between
    the two polls in the trace; polls and 5000 ms sleeps alternate throughout,
    so the interval is the same in every round. *)
Theorem pollUntilComplete_sleeps_5000_between_polls cli id fuel p :
  let h' := snd (pollUntilComplete cli fuel id start) in
  S p < runs h' ->
  keepsPolling (cli p) = true /\
  trace h' !! (2 * p) = Some (Exec (getCommand id)) /\
  trace h' !! (2 * p + 1) = Some (Sleep 5000) /\
  trace h' !! (2 * p + 2) = Some (Exec (getCommand id)) /\
  alternates id (trace h').
Proof.
  intros h'. subst h'.
  destruct (pollUntilComplete_cases cli id fuel)
    as [[E Hall]|(k & Hk & E & Hstop & Hbefore)]; rewrite E; cbn [snd runs trace]; intros Hp.
  - split; [apply Hall; lia|].
    rewrite <- (app_nil_r (rounds fuel id)).
    destruct (lookup_rounds id fuel [] p) as [H0 H1]; [lia|].
    destruct (lookup_rounds id fuel [] (S p)) as [H2 _]; [lia|].
    replace (2 * p + 2) with (2 * S p) by lia.
    repeat split; try assumption.
    apply alternates_rounds, alternates_nil.
  - split; [apply Hbefore; lia|].
    destruct (lookup_rounds id k [Exec (getCommand id)] p) as [H0 H1]; [lia|].
    repeat split; try assumption.
    + replace (2 * p + 2) with (2 * S p) by lia.
      destruct (decide (S p = k)) as [<-|Hne].
      * now rewrite lookup_rounds_end.
      * now apply lookup_rounds; lia.
    + apply alternates_rounds, alternates_poll.
Qed.

Lemma pollUntilComplete_sleeps_5000_between_polls_witness :
  let h' := snd (pollUntilComplete queuedThenSuccess 4 "0HD000000000001" start) in
  1 < runs h' /\
  (keepsPolling (queuedThenSuccess 0) = true /\
   trace h' !! (2 * 0) = Some (Exec (getCommand "0HD000000000001")) /\
   trace h' !! (2 * 0 + 1) = Some (Sleep 5000) /\
   trace h' !! (2 * 0 + 2) = Some (Exec (getCommand "0HD000000000001")) /\
   alternates "0HD000000000001" (trace h')).
Proof.
  intros h'. assert (Hp : 1 < runs h') by (vm_compute; lia).
  split; [exact Hp|].
  exact (pollUntilComplete_sleeps_5000_between_polls queuedThenSuccess
           "0HD000000000001" 4 0 Hp).
Defined.

End NutClaims.

(** ** The report command *)

Section ReportFacts.
Import Js PackageVersionCreateReport.
Context `{Messages, Chalk, PackagingSdk}.

Lemma display_spec l w r :
  objects w !! l = Some r ->
  display l w =
  (Resolved tt,
   {| objects := objects w; requests := requests w; ux := ux w ++ rendering r |}).
Proof.
  intros Hl. unfold display, mbind, cmd_bind, deref. rewrite Hl.
  unfold styledHeader, table, rendering. cbn [objects requests ux].
  now rewrite <- (app_assoc (ux w)).
Qed.

Lemma display_dangling l w :
  objects w !! l = None -> display l w = (Rejected TypeError, w).
Proof. intros Hl. unfold display, mbind, cmd_bind, deref. now rewrite Hl. Qed.

Lemma getCreateVersionReport_ok id w r :
  createVersionReport id = inr r ->
  let l := fresh (dom (objects w)) in
  getCreateVersionReport id w =
  (Resolved l,
   {| objects := <[l:=r]> (objects w); requests := requests w ++ [id]; ux := ux w |}).
Proof. intros Hr. unfold getCreateVersionReport. now rewrite Hr. Qed.

Lemma fresh_object_unused (w : World) : objects w !! fresh (dom (objects w)) = None.
Proof. apply not_elem_of_dom, is_fresh. Qed.

Lemma run_ok flags w r :
  createVersionReport (packagecreaterequestid flags) = inr r ->
  let l := fresh (dom (objects w)) in
  run flags w =
  (Resolved l,
   {| objects := <[l:=r]> (objects w);
      requests := requests w ++ [packagecreaterequestid flags];
      ux := ux w ++ rendering r |}).
Proof.
  intros Hr l. unfold run, mbind, cmd_bind.
  rewrite (getCreateVersionReport_ok _ w r Hr). fold l.
  rewrite (display_spec l _ r) by apply lookup_insert_eq.
  reflexivity.
Qed.

Lemma run_propagates_error_state flags w e :
  createVersionReport (packagecreaterequestid flags) = inl e ->
  run flags w =
  (Rejected e,
   {| objects := objects w;
      requests := requests w ++ [packagecreaterequestid flags];
      ux := ux w |}).
Proof.
  intros He. unfold run, mbind, cmd_bind, getCreateVersionReport. now rewrite He.
Qed.

End ReportFacts.

Section ReportClaims.
Import Js PackageVersionCreateReport.
Context `{Messages, Chalk, PackagingSdk}.

(** C4. The table [display] prints for a record has, as its ninth row, the
    install-URL row: its value is the install URL base followed by the record's
    SubscriberPackageVersionId (as a template literal renders it) when Status
    is 'Success', and the empty string, the row still being there, for any
    other status. Its second row is the Status row, whose value is the status
    passed through convertCamelCaseStringToSentence. *)
Theorem display_install_url_and_status_rows l w r :
  objects w !! l = Some r ->
  exists rows columns url,
    last (ux (snd (display l w))) = Some (Table rows columns) /\
    rows !! 1 = Some {| key := pvclMessages "status";
                        value := JsStr (convertCamelCaseStringToSentence (Status r)) |} /\
    rows !! 8 = Some {| key := pvclMessages "installUrl"; value := JsStr url |} /\
    (Status r = "Success" ->
       url = INSTALL_URL_BASE +:+ template (SubscriberPackageVersionId r)) /\
    (Status r <> "Success" -> url = "").
Proof.
  intros Hl. rewrite (display_spec l w r Hl). cbn [snd ux].
  exists (data r), [("key", "Name"); ("value", "Value")], (installUrlValue r).
  split; [|split; [reflexivity|split; [reflexivity|]]].
  - unfold rendering.
    change [StyledHeader (blue "Package Version Create Request");
            Table (data r) [("key", "Name"); ("value", "Value")]]
      with ([StyledHeader (R:=Row) (blue "Package Version Create Request")] ++
            [Table (data r) [("key", "Name"); ("value", "Value")]]).
    rewrite app_assoc. apply last_snoc.
  - unfold installUrlValue. split; intros Hs.
    + now rewrite Hs.
    + destruct (String.eqb_spec (Status r) "Success") as [E|_]; [contradiction|reflexivity].
Qed.

(** C5. Whatever the record and its status, [display] prints one header and
    one table of exactly ten rows, labelled in this order: id, status,
    packageId, packageVersionId, subscriberPackageVersionId, tag, branch (from
    the package_version_create_list messages), 'Created Date', installUrl
    (same messages) and createdBy (package_list messages). *)
Theorem display_rows_fixed l w r :
  objects w !! l = Some r ->
  exists header rows columns,
    ux (snd (display l w)) = ux w ++ [StyledHeader header; Table rows columns] /\
    List.map key rows = reportLabels /\
    length rows = 10.
Proof.
  intros Hl. rewrite (display_spec l w r Hl). cbn [snd ux].
  now exists (blue "Package Version Create Request"), (data r),
    [("key", "Name"); ("value", "Value")].
Qed.

(** C6. When the SDK answers the request with a record, whatever its status,
    [run] resolves with a reference to a fresh object that holds exactly that
    record; one request was made, for the id of the flags. *)
Theorem run_returns_fetched_record flags w r :
  createVersionReport (packagecreaterequestid flags) = inr r ->
  exists l w',
    run flags w = (Resolved l, w') /\
    objects w' !! l = Some r /\
    objects w !! l = None /\
    requests w' = requests w ++ [packagecreaterequestid flags].
Proof.
  intros Hr. rewrite (run_ok flags w r Hr).
  eexists. eexists. split; [reflexivity|]. cbn [objects requests].
  split; [apply lookup_insert_eq|]. split; [apply fresh_object_unused|reflexivity].
Qed.

(** C7. When the SDK answers the request with an error, [run] rejects with
    that same error after that one request: nothing was sent to the ux sink
    and no object was created. *)
Theorem run_propagates_poll_error flags w e :
  createVersionReport (packagecreaterequestid flags) = inl e ->
  run flags w =
  (Rejected e,
   {| objects := objects w;
      requests := requests w ++ [packagecreaterequestid flags];
      ux := ux w |}).
Proof.
  intros He. unfold run, mbind, cmd_bind, getCreateVersionReport. now rewrite He.
Qed.

(** C8. Two calls of [display] on equal records, through any references and
    in any worlds, send the same calls (the same header and the same rows) to
    the ux sink, and each leaves every object, the displayed record included,
    as it was. *)
Theorem display_deterministic_and_readonly l1 l2 w1 w2 r :
  objects w1 !! l1 = Some r ->
  objects w2 !! l2 = Some r ->
  exists out,
    display l1 w1 =
      (Resolved tt, {| objects := objects w1; requests := requests w1; ux := ux w1 ++ out |}) /\
    display l2 w2 =
      (Resolved tt, {| objects := objects w2; requests := requests w2; ux := ux w2 ++ out |}).
Proof.
  intros H1' H2'. exists (rendering r).
  split; now apply display_spec.
Qed.

End ReportClaims.

Section ReportExamples.
Import Js PackageVersionCreateReport Fixtures.
#[local] Existing Instances englishMessages plainChalk sdk.

Example reportLabels_english :
  reportLabels =
  [ "Id"; "Status"; "Package Id"; "Package Version Id"; "Subscriber Package Version Id";
    "Tag"; "Branch"; "Created Date"; "Install URL"; "Created By" ].
Proof. reflexivity. Qed.

Example installUrlValue_succeeded :
  installUrlValue succeeded =
  "https://login.salesforce.com/packaging/installPackage.apexp?p0=04t000000000001".
Proof. reflexivity. Qed.

Example installUrlValue_queued : installUrlValue queued = "".
Proof. reflexivity. Qed.

Example run_succeeded :
  run {| packagecreaterequestid := "08c000000000001" |} newWorld =
  (Resolved 1%positive,
   {| objects := {[ 1%positive := succeeded ]};
      requests := ["08c000000000001"];
      ux := [ StyledHeader "Package Version Create Request";
              Table (data succeeded) [("key", "Name"); ("value", "Value")] ] |}).
Proof. vm_compute. reflexivity. Qed.

Example run_unknown_id :
  fst (run {| packagecreaterequestid := "nonexistent-id" |} newWorld) = Rejected NotFoundError.
Proof. reflexivity. Qed.

Lemma display_install_url_and_status_rows_witness :
  objects twoRecords !! 1%positive = Some succeeded /\
  exists rows columns url,
    last (ux (snd (display 1%positive twoRecords))) = Some (Table rows columns) /\
    rows !! 1 = Some {| key := pvclMessages "status";
                        value := JsStr (convertCamelCaseStringToSentence (Status succeeded)) |} /\
    rows !! 8 = Some {| key := pvclMessages "installUrl"; value := JsStr url |} /\
    (Status succeeded = "Success" ->
       url = INSTALL_URL_BASE +:+ template (SubscriberPackageVersionId succeeded)) /\
    (Status succeeded <> "Success" -> url = "").
Proof.
  assert (Hl : objects twoRecords !! 1%positive = Some succeeded) by reflexivity.
  split; [exact Hl|].
  exact (display_install_url_and_status_rows 1%positive twoRecords succeeded Hl).
Defined.

Lemma display_rows_fixed_witness :
  objects twoRecords !! 2%positive = Some queued /\
  exists header rows columns,
    ux (snd (display 2%positive twoRecords)) =
      ux twoRecords ++ [StyledHeader header; Table rows columns] /\
    List.map key rows = reportLabels /\
    length rows = 10.
Proof.
  assert (Hl : objects twoRecords !! 2%positive = Some queued) by reflexivity.
  split; [exact Hl|].
  exact (display_rows_fixed 2%positive twoRecords queued Hl).
Defined.

Lemma run_returns_fetched_record_witness :
  createVersionReport "08c000000000002" = inr queued /\
  exists l w',
    run {| packagecreaterequestid := "08c000000000002" |} twoRecords = (Resolved l, w') /\
    objects w' !! l = Some queued /\
    objects twoRecords !! l = None /\
    requests w' = requests twoRecords ++ ["08c000000000002"].
Proof.
  assert (Hr : createVersionReport "08c000000000002" = inr queued) by reflexivity.
  split; [exact Hr|].
  exact (run_returns_fetched_record
           {| packagecreaterequestid := "08c000000000002" |} twoRecords queued Hr).
Defined.

Lemma run_propagates_poll_error_witness :
  createVersionReport "08c00000000000X" = inl NotFoundError /\
  run {| packagecreaterequestid := "08c00000000000X" |} twoRecords =
  (Rejected NotFoundError,
   {| objects := objects twoRecords;
      requests := requests twoRecords ++ ["08c00000000000X"];
      ux := ux twoRecords |}).
Proof.
  assert (He : createVersionReport "08c00000000000X" = inl NotFoundError) by reflexivity.
  split; [exact He|].
  exact (run_propagates_poll_error
           {| packagecreaterequestid := "08c00000000000X" |} twoRecords NotFoundError He).
Defined.

Lemma display_deterministic_and_readonly_witness :
  objects twoRecords !! 1%positive = Some succeeded /\
  objects laterWorld !! 7%positive = Some succeeded /\
  exists out,
    display 1%positive twoRecords =
      (Resolved tt, {| objects := objects twoRecords; requests := requests twoRecords;
                       ux := ux twoRecords ++ out |}) /\
    display 7%positive laterWorld =
      (Resolved tt, {| objects := objects laterWorld; requests := requests laterWorld;
                       ux := ux laterWorld ++ out |}).
Proof.
  assert (H1 : objects twoRecords !! 1%positive = Some succeeded) by reflexivity.
  assert (H2 : objects laterWorld !! 7%positive = Some succeeded) by reflexivity.
  split; [exact H1|]. split; [exact H2|].
  exact (display_deterministic_and_readonly 1%positive 7%positive
           twoRecords laterWorld succeeded H1 H2).
Defined.

End ReportExamples.

(** ** The list command *)

Section ListClaims.
Import Js PackageList.
Context `{Messages, Chalk, SfProject}.

Lemma filter_notDeprecated records :
  List.filter (fun record => Bool.eqb (PackagingSObjects.IsDeprecated record) false) records =
  List.filter notDeprecated records.
Proof.
  apply List.filter_ext. intros p. unfold notDeprecated.
  now destruct (PackagingSObjects.IsDeprecated p).
Qed.

(** A non-empty answer replaces [results], whatever they were. *)
Lemma mapRecordsToResults_nonempty p records this :
  results (mapRecordsToResults (Some (p :: records)) this) =
  List.map toResult (List.filter notDeprecated (p :: records)).
Proof. unfold mapRecordsToResults. cbn [length Nat.ltb Nat.leb results]. now rewrite filter_notDeprecated. Qed.

(** An empty or missing answer leaves the command as it was. *)
Lemma mapRecordsToResults_empty this :
  mapRecordsToResults (Some []) this = this /\ mapRecordsToResults None this = this.
Proof. now split. Qed.

Lemma displayResults_results verbose apiVersion this :
  results (displayResults verbose apiVersion this) = results this.
Proof. reflexivity. Qed.

Lemma run_results flags records :
  fst (run flags (Some records) newCommand) =
  List.map toResult (List.filter notDeprecated records).
Proof.
  unfold run. cbn [fst]. rewrite displayResults_results.
  destruct records as [|p records]; [reflexivity|].
  apply mapRecordsToResults_nonempty.
Qed.

(** C9. The list a fresh command resolves with has one entry per input record
    whose IsDeprecated is false, in input order, and none for the others; for
    an empty input it is empty. *)
Theorem run_lists_non_deprecated flags records :
  fst (run flags (Some records) newCommand) =
    List.map toResult (List.filter notDeprecated records) /\
  List.map Id (fst (run flags (Some records) newCommand)) =
    List.map PackagingSObjects.Id (List.filter notDeprecated records) /\
  fst (run flags (Some []) newCommand) = [].
Proof.
  rewrite !run_results. split; [reflexivity|]. split; [|reflexivity].
  rewrite List.map_map. reflexivity.
Qed.

(** C10. Entry by entry, the IsOrgDependent of the result is 'N/A' when the
    input's ContainerOptions is 'Managed', whatever its IsOrgDependent flag;
    otherwise it is 'Yes' when the flag is true and 'No' when it is false. *)
Theorem run_IsOrgDependent flags records :
  Forall2
    (fun p entry =>
       (PackagingSObjects.ContainerOptions p = "Managed" -> IsOrgDependent entry = "N/A") /\
       (PackagingSObjects.ContainerOptions p <> "Managed" ->
          (PackagingSObjects.IsOrgDependent p = true -> IsOrgDependent entry = "Yes") /\
          (PackagingSObjects.IsOrgDependent p = false -> IsOrgDependent entry = "No")))
    (List.filter notDeprecated records)
    (fst (run flags (Some records) newCommand)).
Proof.
  rewrite run_results.
  induction (List.filter notDeprecated records) as [|p kept IH]; constructor; [|exact IH].
  cbn [toResult IsOrgDependent].
  destruct (String.eqb_spec (PackagingSObjects.ContainerOptions p) "Managed") as [E|E].
  - split; [reflexivity|]. intros Hne. contradiction.
  - split; [intros Hm; contradiction|]. intros _.
    split; intros ->; reflexivity.
Qed.

End ListClaims.

Section ListExamples.
Import Js PackageList Fixtures.
#[local] Existing Instances englishMessages plainChalk project.

Example run_three_packages :
  List.map (fun entry => (Id entry, IsOrgDependent entry))
    (fst (run quiet
            (Some [ package "0Ho000000000001" "Managed" true false;
                    package "0Ho000000000002" "Unlocked" true true;
                    package "0Ho000000000003" "Unlocked" true false;
                    package "0Ho000000000004" "Unlocked" false false ])
            newCommand)) =
  [ ("0Ho000000000001", "N/A"); ("0Ho000000000003", "Yes"); ("0Ho000000000004", "No") ].
Proof. reflexivity. Qed.

Example run_header_counts_results :
  ux (snd (run quiet (Some [ package "0Ho000000000001" "Managed" true false ]) newCommand)) !! 0 =
  Some (StyledHeader "Packages [1]").
Proof. reflexivity. Qed.

End ListExamples.

(** ** More on the polling helper *)

Section NutExtras.
Import Js VersionCreateNut Observations MoreFixtures.

Lemma outerSettlement_iter_rejected k e :
  Nat.iter k outerSettlement (Rejected e) = Rejected e.
Proof.
  induction k as [|k IH]; [reflexivity|].
  change (Nat.iter (S k) outerSettlement (Rejected e))
    with (outerSettlement (Nat.iter k outerSettlement (Rejected e))).
  now rewrite IH.
Qed.

Lemma outerSettlement_iter_resolved k v :
  Nat.iter (S k) outerSettlement (Resolved v) = Resolved None.
Proof.
  change (Nat.iter (S k) outerSettlement (Resolved v))
    with (outerSettlement (Nat.iter k outerSettlement (Resolved v))).
  destruct (outerSettlement_resolved k v) as [v' ->]. reflexivity.
Qed.

Lemma slept_app tr1 tr2 : slept (tr1 ++ tr2) = (slept tr1 + slept tr2)%Z.
Proof.
  induction tr1 as [|[cmd|ms] tr1 IH]; cbn [app slept]; [reflexivity|exact IH|lia].
Qed.

Lemma slept_rounds n id : slept (rounds n id) = (5000 * Z.of_nat n)%Z.
Proof. induction n as [|n IH]; cbn [rounds slept]; lia. Qed.

(** X1. Started on a harness that has already run commands, the helper does
    what it does on a fresh one against the remaining answers of the CLI: the
    same settlement, its polls counted on top of the earlier runs and its
    effects appended to the earlier trace. *)
Theorem pollUntilComplete_frame cli id fuel h :
  pollUntilComplete cli fuel id h =
  (fst (pollUntilComplete (fun n => cli (runs h + n)) fuel id start),
   {| runs := runs h + runs (snd (pollUntilComplete (fun n => cli (runs h + n)) fuel id start));
      trace := trace h ++
               trace (snd (pollUntilComplete (fun n => cli (runs h + n)) fuel id start)) |}).
Proof.
  destruct (pollUntilComplete_cases (fun n => cli (runs h + n)) id fuel)
    as [[E Hall]|(k & Hk & E & Hstop & Hbefore)]; rewrite E; cbn [fst snd runs trace].
  - now apply pollUntilComplete_pending.
  - now apply pollUntilComplete_settles.
Qed.

(** X2. The time a run has spent asleep is 5000 ms for every poll but the
    last once the helper has settled, and 5000 ms for every poll while it is
    still pending. *)
Theorem pollUntilComplete_time_asleep cli id fuel :
  let '(o, h') := pollUntilComplete cli fuel id start in
  slept (trace h') =
  match o with
  | Pending => (5000 * Z.of_nat (runs h'))%Z
  | _ => (5000 * (Z.of_nat (runs h') - 1))%Z
  end.
Proof.
  destruct (pollUntilComplete_cases cli id fuel)
    as [[E Hall]|(k & Hk & E & Hstop & Hbefore)]; rewrite E; cbn [runs trace].
  - apply slept_rounds.
  - rewrite slept_app, slept_rounds. cbn [slept].
    pose proof (outerSettlement_not_pending k _ (ownSettlement_not_pending id (cli k))) as Hn.
    destruct (Nat.iter k outerSettlement (ownSettlement id (cli k))); [lia|lia|congruence].
Qed.

(** X3. When the helper resolves, its last poll answered SUCCESS. The value it
    resolves with is that poll's record only if it was the first poll; after
    two or more polls the value is undefined. *)
Theorem pollUntilComplete_resolved_value cli id fuel v h' :
  pollUntilComplete cli fuel id start = (Resolved v, h') ->
  1 <= runs h' /\
  isSuccess (jsonResult (cli (runs h' - 1))) = true /\
  (runs h' = 1 -> v = jsonResult (cli 0)) /\
  (1 < runs h' -> v = None).
Proof.
  intros Hrun.
  destruct (pollUntilComplete_cases cli id fuel)
    as [[E Hall]|(k & Hk & E & Hstop & Hbefore)]; rewrite E in Hrun; [discriminate Hrun|].
  inversion Hrun as [[Hv Hh]]. clear Hrun E. cbn [runs].
  replace (S k - 1) with k by lia.
  unfold ownSettlement in Hv. unfold keepsPolling in Hstop.
  destruct (exitCode (cli k) =? 0)%Z.
  - cbn in Hstop. apply negb_false_iff in Hstop.
    split; [lia|]. split; [exact Hstop|].
    destruct k as [|k].
    + cbn in Hv. inversion Hv. split; [reflexivity|lia].
    + rewrite outerSettlement_iter_resolved in Hv. inversion Hv. split; [lia|reflexivity].
  - rewrite outerSettlement_iter_rejected in Hv. discriminate Hv.
Qed.

Lemma pollUntilComplete_resolved_value_witness :
  pollUntilComplete queuedThenSuccess 4 "0HD000000000001" start =
    (Resolved None,
     {| runs := 2; trace := rounds 1 "0HD000000000001" ++ [Exec (getCommand "0HD000000000001")] |}) /\
  (1 <= 2 /\
   isSuccess (jsonResult (queuedThenSuccess (2 - 1))) = true /\
   (2 = 1 -> None = jsonResult (queuedThenSuccess 0)) /\
   (1 < 2 -> @None PackageUploadRequest = None)).
Proof.
  assert (E : pollUntilComplete queuedThenSuccess 4 "0HD000000000001" start =
    (Resolved None,
     {| runs := 2; trace := rounds 1 "0HD000000000001" ++ [Exec (getCommand "0HD000000000001")] |}))
    by reflexivity.
  split; [exact E|].
  exact (pollUntilComplete_resolved_value queuedThenSuccess "0HD000000000001" 4 None _ E).
Defined.

(** X4. A polled command that exits with a code other than 0 rejects the whole
    call, from whatever depth: when poll [k] is the first whose command fails
    and the earlier polls asked for another round, the helper rejects with the
    exit-code error after [k + 1] polls and [k] sleeps, and polls no more. *)
Theorem pollUntilComplete_rejects_at_failed_command cli id k fuel :
  (forall i, i < k -> keepsPolling (cli i) = true) ->
  exitCode (cli k) <> 0%Z ->
  k < fuel ->
  pollUntilComplete cli fuel id start =
  (Rejected (UnexpectedExitCode (getCommand id)),
   {| runs := S k; trace := rounds k id ++ [Exec (getCommand id)] |}).
Proof.
  intros Hbefore Hexit Hk.
  assert (Hz : (exitCode (cli k) =? 0)%Z = false) by now apply Z.eqb_neq.
  rewrite (pollUntilComplete_settles_start cli id k fuel Hk Hbefore).
  - unfold ownSettlement. rewrite Hz. now rewrite outerSettlement_iter_rejected.
  - unfold keepsPolling. now rewrite Hz.
Qed.

Lemma pollUntilComplete_rejects_at_failed_command_witness :
  pollUntilComplete inProgressThenFails 5 "0HD000000000001" start =
  (Rejected (UnexpectedExitCode (getCommand "0HD000000000001")),
   {| runs := 3;
      trace := rounds 2 "0HD000000000001" ++ [Exec (getCommand "0HD000000000001")] |}).
Proof.
  apply (pollUntilComplete_rejects_at_failed_command inProgressThenFails
           "0HD000000000001" 2 5).
  - intros i Hi. destruct i as [|[|i]]; [reflexivity|reflexivity|lia].
  - discriminate.
  - lia.
Defined.



End NutExtras.

(** ** The --json test cases *)

Section TestExtras.
Import Js VersionCreateNut VersionCreateNutTests.

Variable cli : nat -> ExecResult.

Lemma exec_ok cmd s :
  exitCode (cli (runs (harness s))) = 0%Z ->
  exec cli cmd s = (Resolved (jsonResult (cli (runs (harness s)))), afterCommand cmd s).
Proof. intros He. unfold exec, execCmd. now rewrite He. Qed.



(** X7. When the create command already answers SUCCESS, the --json test
    passes without polling or sleeping: it runs that one command, and
    uploadRequestId becomes the Id of the result unless it was set before. *)
Theorem createJsonTest_already_uploaded fuel s o :
  exitCode (cli (runs (harness s))) = 0%Z ->
  jsonResult (cli (runs (harness s))) = Some o ->
  Status o = "SUCCESS" ->
  createJsonTest cli fuel s =
  (Resolved tt,
   {| harness := {| runs := S (runs (harness s));
                    trace := trace (harness s) ++ [Exec (createJsonCommand false s)] |};
      packageId := packageId s;
      uploadRequestId := Some (default (Id o) (uploadRequestId s)) |}).
Proof.
  intros He Ho Hs. unfold createJsonTest, mbind, test_bind.
  rewrite (exec_ok _ s He), Ho.
  assert (Hsuccess : isSuccess (Some o) = true) by (cbn [isSuccess]; now rewrite Hs).
  rewrite Hsuccess. cbn [negb]. unfold mret, test_ret, keepOrSetUploadRequestId, afterCommand.
  cbn [uploadRequestId harness packageId].
  destruct s as [h p [x|]]; reflexivity.
Qed.

(** X8. When the create command exits with 0 but its result is missing or has
    a Status that is neither SUCCESS nor QUEUED, the --json test fails with an
    assertion error right after that command: it never polls, and it does not
    set uploadRequestId. *)
Theorem createJsonTest_unexpected_status fuel s :
  exitCode (cli (runs (harness s))) = 0%Z ->
  field Status (jsonResult (cli (runs (harness s)))) <> JsStr "SUCCESS" ->
  field Status (jsonResult (cli (runs (harness s)))) <> JsStr "QUEUED" ->
  exists text,
    createJsonTest cli fuel s =
    (Rejected (AssertionError text), afterCommand (createJsonCommand false s) s).
Proof.
  intros He Hs Hq. unfold createJsonTest, mbind, test_bind.
  rewrite (exec_ok _ s He).
  destruct (jsonResult (cli (runs (harness s)))) as [o|]; cbn [field] in *.
  - cbn [isSuccess].
    destruct (String.eqb_spec (Status o) "SUCCESS") as [E|_]; [congruence|].
    cbn [negb expectEqual].
    destruct (String.eqb_spec (Status o) "QUEUED") as [E|_]; [congruence|].
    eexists. reflexivity.
  - cbn [isSuccess negb expectEqual]. eexists. reflexivity.
Qed.

Lemma keepsVariables_bind {A B} (m : Test A) (k : A -> Test B) :
  keepsVariables m -> (forall a, keepsVariables (k a)) -> keepsVariables (m ≫= k).
Proof.
  intros Hm Hk s. unfold mbind, test_bind.
  specialize (Hm s). destruct (m s) as [[a|e|] s1]; cbn [snd] in *; [|exact Hm|exact Hm].
  specialize (Hk a s1). destruct Hk as [Hu Hp]. destruct Hm as [Hu' Hp'].
  split; congruence.
Qed.

Lemma test_bind_unfold {A B} (m : Test A) (k : A -> Test B) s :
  (m ≫= k) s =
  match m s with
  | (Resolved a, s') => k a s'
  | (Rejected e, s') => (Rejected e, s')
  | (Pending, s') => (Pending, s')
  end.
Proof. reflexivity. Qed.

Lemma keepsVariables_ret {A} (a : A) : keepsVariables (mret a).
Proof. intros s. now split. Qed.

Lemma keepsVariables_exec cmd : keepsVariables (exec cli cmd).
Proof.
  intros s. unfold exec. destruct (execCmd cli cmd (harness s)) as [o h]. now split.
Qed.

Lemma keepsVariables_poll fuel id : keepsVariables (poll cli fuel id).
Proof.
  intros s. unfold poll. destruct (pollUntilComplete cli fuel id (harness s)) as [o h].
  now split.
Qed.

Lemma keepsVariables_expectEqual v expected : keepsVariables (expectEqual v expected).
Proof.
  intros s. unfold expectEqual. destruct v as [| |a|b]; try now split.
  destruct (String.eqb a expected); now split.
Qed.

Lemma keepsVariables_expectString v : keepsVariables (expectString v).
Proof. intros s. unfold expectString. destruct v; now split. Qed.

Lemma keepsVariables_expectTrue v : keepsVariables (expectTrue v).
Proof. intros s. unfold expectTrue. destruct v as [| | |[|]]; now split. Qed.

(** X9. The --json test never overwrites an uploadRequestId that an earlier
    test has set, whatever the CLI answers and however the test ends; and it
    never changes packageId. *)
Theorem createJsonTest_keeps_uploadRequestId fuel s x :
  uploadRequestId s = Some x ->
  uploadRequestId (snd (createJsonTest cli fuel s)) = Some x /\
  packageId (snd (createJsonTest cli fuel s)) = packageId s.
Proof.
  intros Hx.
  pose (body := fun output : option PackageUploadRequest =>
         if negb (isSuccess output)
         then expectEqual (field Status output) "QUEUED";;
              expectString (field Id output);;
              expectString (field MetadataPackageId output);;
              expectString (field MetadataPackageVersionId output);;
              expectTrue (startsWith MetadataPackageVersionId "04t" output);;
              expectTrue (startsWith MetadataPackageId "033" output);;
              poll cli fuel (template (field Id output));;
              mret tt
         else mret tt).
  assert (Hbody : forall output, keepsVariables (body output)).
  { intros output. unfold body. destruct (negb (isSuccess output)).
    - repeat (apply keepsVariables_bind; [|intros ?]);
        auto using keepsVariables_expectEqual, keepsVariables_expectString,
          keepsVariables_expectTrue, keepsVariables_poll, keepsVariables_ret.
    - apply keepsVariables_ret. }
  remember (createJsonTest cli fuel s) as r eqn:Hr.
  change (r = (output ← exec cli (createJsonCommand false s);
               body output;; keepOrSetUploadRequestId output) s) in Hr.
  rewrite test_bind_unfold in Hr.
  pose proof (keepsVariables_exec (createJsonCommand false s) s) as [Hu Hp].
  destruct (exec cli (createJsonCommand false s) s) as [[output|e|] s1];
    cbn [snd] in *; [|subst r; split; cbn [snd]; congruence..].
  rewrite test_bind_unfold in Hr.
  pose proof (Hbody output s1) as [Hu1 Hp1].
  destruct (body output s1) as [[[]|e|] s2];
    cbn [snd] in *; [|subst r; split; cbn [snd]; congruence..].
  unfold keepOrSetUploadRequestId in Hr.
  assert (Hs2 : uploadRequestId s2 = Some x) by congruence.
  rewrite Hs2 in Hr. subst r. cbn [snd]. split; congruence.
Qed.

(** X10. End to end: the create command answers QUEUED with well-formed ids,
    and [k] polls later the upload answers SUCCESS. Then the --json test
    passes after the create command, [k + 1] polls of that request's Id and
    [k] sleeps, and uploadRequestId becomes that Id unless it was set before. *)
Theorem createJsonTest_queued_then_success fuel s o k :
  let n := runs (harness s) in
  exitCode (cli n) = 0%Z ->
  jsonResult (cli n) = Some o ->
  Status o = "QUEUED" ->
  String.prefix "04t" (MetadataPackageVersionId o) = true ->
  String.prefix "033" (MetadataPackageId o) = true ->
  (forall i, i < k -> keepsPolling (cli (S n + i)) = true) ->
  exitCode (cli (S n + k)) = 0%Z ->
  isSuccess (jsonResult (cli (S n + k))) = true ->
  k < fuel ->
  createJsonTest cli fuel s =
  (Resolved tt,
   {| harness :=
        {| runs := S n + S k;
           trace := (trace (harness s) ++ [Exec (createJsonCommand false s)]) ++
                    rounds k (Id o) ++ [Exec (getCommand (Id o))] |};
      packageId := packageId s;
      uploadRequestId := Some (default (Id o) (uploadRequestId s)) |}).
Proof.
  intros n He Ho Hq H04 H033 Hbefore Hexit Hsuccess Hk. subst n.
  unfold createJsonTest, mbind, test_bind.
  rewrite (exec_ok _ s He), Ho.
  assert (Hpending : isSuccess (Some o) = false) by (cbn [isSuccess]; now rewrite Hq).
  rewrite Hpending.
  cbn [negb field startsWith expectEqual expectString template].
  rewrite Hq, H04, H033. cbn [String.eqb Ascii.eqb Bool.eqb expectTrue].
  unfold poll. cbn [harness afterCommand].
  rewrite (pollUntilComplete_settles cli (Id o) k fuel
             {| runs := S (runs (harness s));
                trace := trace (harness s) ++ [Exec (createJsonCommand false s)] |});
    [|exact Hk|exact Hbefore|].
  - cbn [runs trace]. unfold ownSettlement. rewrite Hexit.
    change (0 =? 0)%Z with true. cbv iota.
    match goal with
    | |- context [Nat.iter k outerSettlement (Resolved ?v)] =>
      destruct (outerSettlement_resolved k v) as [v' ->]
    end.
    unfold mret, test_ret, keepOrSetUploadRequestId.
    cbn [uploadRequestId harness packageId].
    destruct s as [h p [x|]]; reflexivity.
  - cbn [runs]. unfold keepsPolling. now rewrite Hexit, Hsuccess.
Qed.

(** X11. The same start, but an upload that never answers SUCCESS while its
    command keeps exiting with 0 (an upload that ended in ERROR, say): the
    --json test does not finish, whatever the bound on the invocations. *)
Theorem createJsonTest_hangs_on_failed_upload fuel s o :
  let n := runs (harness s) in
  exitCode (cli n) = 0%Z ->
  jsonResult (cli n) = Some o ->
  Status o = "QUEUED" ->
  String.prefix "04t" (MetadataPackageVersionId o) = true ->
  String.prefix "033" (MetadataPackageId o) = true ->
  (forall i, keepsPolling (cli (S n + i)) = true) ->
  fst (createJsonTest cli fuel s) = Pending /\
  runs (harness (snd (createJsonTest cli fuel s))) = S n + fuel.
Proof.
  intros n He Ho Hq H04 H033 Hall. subst n.
  unfold createJsonTest, mbind, test_bind.
  rewrite (exec_ok _ s He), Ho.
  assert (Hpending : isSuccess (Some o) = false) by (cbn [isSuccess]; now rewrite Hq).
  rewrite Hpending.
  cbn [negb field startsWith expectEqual expectString template].
  rewrite Hq, H04, H033. cbn [String.eqb Ascii.eqb Bool.eqb expectTrue].
  unfold poll. cbn [harness afterCommand].
  rewrite (pollUntilComplete_pending cli (Id o) fuel
             {| runs := S (runs (harness s));
                trace := trace (harness s) ++ [Exec (createJsonCommand false s)] |}).
  - now split.
  - intros i _. apply Hall.
Qed.

End TestExtras.

Section TestExamples.
Import Js VersionCreateNut VersionCreateNutTests MoreFixtures.

Lemma createJsonTest_already_uploaded_witness :
  createJsonTest (fun _ => upload "SUCCESS") 3 fresh1gp =
  (Resolved tt,
   {| harness := {| runs := 1; trace := [Exec (createJsonCommand false fresh1gp)] |};
      packageId := Some "033000000000001";
      uploadRequestId := Some "0HD000000000001" |}).
Proof.
  exact (createJsonTest_already_uploaded (fun _ => upload "SUCCESS") 3 fresh1gp
           (request "SUCCESS") eq_refl eq_refl eq_refl).
Defined.

Lemma createJsonTest_unexpected_status_witness :
  exists text,
    createJsonTest (fun _ => upload "IN_PROGRESS") 3 fresh1gp =
    (Rejected (AssertionError text), afterCommand (createJsonCommand false fresh1gp) fresh1gp).
Proof.
  apply (createJsonTest_unexpected_status (fun _ => upload "IN_PROGRESS") 3 fresh1gp).
  - reflexivity.
  - discriminate.
  - discriminate.
Defined.

Lemma createJsonTest_keeps_uploadRequestId_witness :
  uploadRequestId (snd (createJsonTest queuedThenSuccess 3 laterSuite)) = Some "0HD00000000000A" /\
  packageId (snd (createJsonTest queuedThenSuccess 3 laterSuite)) = packageId laterSuite.
Proof.
  exact (createJsonTest_keeps_uploadRequestId queuedThenSuccess 3 laterSuite
           "0HD00000000000A" eq_refl).
Defined.

Lemma createJsonTest_queued_then_success_witness :
  createJsonTest queuedInProgressSuccess 5 fresh1gp =
  (Resolved tt,
   {| harness :=
        {| runs := 3;
           trace := [Exec (createJsonCommand false fresh1gp)] ++
                    rounds 1 "0HD000000000001" ++ [Exec (getCommand "0HD000000000001")] |};
      packageId := Some "033000000000001";
      uploadRequestId := Some "0HD000000000001" |}).
Proof.
  apply (createJsonTest_queued_then_success queuedInProgressSuccess 5 fresh1gp
           (request "QUEUED") 1);
    try reflexivity.
  - intros i Hi. assert (i = 0) as -> by lia. reflexivity.
  - lia.
Defined.

Lemma createJsonTest_hangs_on_failed_upload_witness :
  fst (createJsonTest queuedThenError 7 fresh1gp) = Pending /\
  runs (harness (snd (createJsonTest queuedThenError 7 fresh1gp))) = 8.
Proof.
  apply (createJsonTest_hangs_on_failed_upload queuedThenError 7 fresh1gp
           (request "QUEUED"));
    reflexivity.
Defined.

End TestExamples.


(** ** More on the report command *)

Section ReportExtras.
Import Js PackageVersionCreateReport.
Context `{Messages, Chalk, PackagingSdk}.

(** X12. Whether the SDK answers with a record or an error, a run keeps every
    object that was there as it was, makes exactly one request, for the id of
    the flags, and only appends to what the ux sink has received. *)
Theorem run_only_adds flags w :
  let w' := snd (run flags w) in
  (forall l x, objects w !! l = Some x -> objects w' !! l = Some x) /\
  requests w' = requests w ++ [packagecreaterequestid flags] /\
  (exists out, ux w' = ux w ++ out).
Proof.
  intros w'. subst w'.
  destruct (createVersionReport (packagecreaterequestid flags)) as [e|r] eqn:E.
  - rewrite (run_propagates_error_state flags w e E). cbn [snd objects requests ux].
    split; [auto|]. split; [reflexivity|]. exists []. now rewrite app_nil_r.
  - rewrite (run_ok flags w r E). cbn [snd objects requests ux].
    split; [|split; [reflexivity|now exists (rendering r)]].
    intros l x Hl. rewrite lookup_insert_ne; [exact Hl|].
    intros <-. rewrite fresh_object_unused in Hl. discriminate Hl.
Qed.


(** X14. The table loses none of the fields the command reads: two records
    for which [display] builds the same rows agree on Id, Package2Id,
    Package2VersionId, SubscriberPackageVersionId, Tag, Branch, CreatedDate
    and CreatedBy, and their statuses have the same sentence form. *)
Theorem data_determines_record r1 r2 :
  data r1 = data r2 ->
  Id r1 = Id r2 /\
  convertCamelCaseStringToSentence (Status r1) = convertCamelCaseStringToSentence (Status r2) /\
  Package2Id r1 = Package2Id r2 /\
  Package2VersionId r1 = Package2VersionId r2 /\
  SubscriberPackageVersionId r1 = SubscriberPackageVersionId r2 /\
  Tag r1 = Tag r2 /\
  Branch r1 = Branch r2 /\
  CreatedDate r1 = CreatedDate r2 /\
  CreatedBy r1 = CreatedBy r2.
Proof.
  unfold data. intros Hd.
  injection Hd as E0 E1 E2 E3 E4 E5 E6 E7 E8 E9.
  repeat split; congruence.
Qed.

Lemma prefix_append (s1 s2 : string) : String.prefix s1 (s1 +:+ s2) = true.
Proof.
  induction s1 as [|a s1 IH]; [now destruct s2|].
  simpl. destruct (Ascii.ascii_dec a a) as [_|Hn]; [exact IH|contradiction].
Qed.

Lemma append_empty (s1 s2 : string) : s1 +:+ s2 = "" -> s1 = "".
Proof. destruct s1; [reflexivity|discriminate]. Qed.

(** X15. With a non-empty install URL base, the install URL of the report is
    empty exactly when the Status is not the string 'Success' (compared as it
    is, case included); otherwise it starts with the base. *)
Theorem installUrlValue_empty_iff r :
  INSTALL_URL_BASE <> "" ->
  (installUrlValue r = "" <-> Status r <> "Success") /\
  (Status r = "Success" -> String.prefix INSTALL_URL_BASE (installUrlValue r) = true).
Proof.
  intros Hbase. unfold installUrlValue.
  destruct (String.eqb_spec (Status r) "Success") as [E|E].
  - split; [split|].
    + intros Hu. apply append_empty in Hu. contradiction.
    + intros Hne. contradiction.
    + intros _. apply prefix_append.
  - split; [split; auto|]. intros Heq. contradiction.
Qed.

End ReportExtras.

Section ReportExtrasExamples.
Import Js PackageVersionCreateReport Fixtures.
#[local] Existing Instances englishMessages plainChalk sdk.


Lemma data_determines_record_witness :
  data succeeded = data succeeded /\
  (Id succeeded = Id succeeded /\
   convertCamelCaseStringToSentence (Status succeeded) =
     convertCamelCaseStringToSentence (Status succeeded) /\
   Package2Id succeeded = Package2Id succeeded /\
   Package2VersionId succeeded = Package2VersionId succeeded /\
   SubscriberPackageVersionId succeeded = SubscriberPackageVersionId succeeded /\
   Tag succeeded = Tag succeeded /\
   Branch succeeded = Branch succeeded /\
   CreatedDate succeeded = CreatedDate succeeded /\
   CreatedBy succeeded = CreatedBy succeeded).
Proof.
  split; [reflexivity|].
  exact (data_determines_record succeeded succeeded eq_refl).
Defined.

Lemma installUrlValue_empty_iff_witness :
  INSTALL_URL_BASE <> "" /\
  (installUrlValue queued = "" <-> Status queued <> "Success") /\
  (Status queued = "Success" ->
     String.prefix INSTALL_URL_BASE (installUrlValue queued) = true).
Proof.
  assert (Hbase : INSTALL_URL_BASE <> "") by discriminate.
  split; [exact Hbase|].
  exact (installUrlValue_empty_iff queued Hbase).
Defined.

End ReportExtrasExamples.

(** ** More on the list command *)

Section ListExtras.
Import Js PackageList Observations.
Context `{Messages, Chalk, SfProject}.

Lemma mapRecordsToResults_new records :
  results (mapRecordsToResults (Some records) newCommand) =
  List.map toResult (List.filter notDeprecated records).
Proof.
  destruct records as [|p records]; [reflexivity|]. apply mapRecordsToResults_nonempty.
Qed.

Lemma mapRecordsToResults_ux queryResult this :
  ux (mapRecordsToResults queryResult this) = ux this.
Proof.
  unfold mapRecordsToResults. destruct queryResult as [rs|]; [|reflexivity].
  now destruct (Nat.ltb 0 (length rs)).
Qed.

(** X16. A run of a fresh command prints one header and one table, in that
    order: the header counts the input records that are not deprecated, and
    the rows of the table are exactly the entries the run resolves with. *)
Theorem run_prints_what_it_returns flags records :
  let '(returned, this) := run flags (Some records) newCommand in
  exists columns,
    ux this =
    [ StyledHeader
        (blue ("Packages [" +:+
               template_nat (length (List.filter notDeprecated records)) +:+ "]"));
      Table returned columns ].
Proof.
  unfold run, displayResults. cbn [results ux].
  rewrite mapRecordsToResults_ux, mapRecordsToResults_new, length_map.
  cbn [ux newCommand app]. eexists. reflexivity.
Qed.

Lemma last_two {A} (l : list A) a b : last (l ++ [a; b]) = Some b.
Proof.
  replace (l ++ [a; b]) with ((l ++ [a]) ++ [b]) by now rewrite <- app_assoc.
  apply last_snoc.
Qed.

Lemma columnsShown_displayResults verbose apiVersion this :
  columnsShown (displayResults verbose apiVersion this) =
  [ "NamespacePrefix"; "Name"; "Id"; "Alias"; "Description"; "ContainerOptions" ] ++
  (if default false verbose
   then [ "SubscriberPackageId"; "ConvertedFromPackageId"; "IsOrgDependent";
          "PackageErrorUsername" ] ++
        (if String.leb "59.0" apiVersion then [ "AppAnalyticsEnabled" ] else []) ++
        [ "CreatedBy" ]
   else []).
Proof.
  unfold columnsShown, displayResults. cbn [ux].
  rewrite last_two.
  destruct (default false verbose); [|reflexivity].
  destruct (String.leb "59.0" apiVersion); reflexivity.
Qed.

(** X17. Without the verbose flag (absent, or false) the table has the six
    columns NamespacePrefix, Name, Id, Alias, Description and ContainerOptions,
    whatever the api version, the records and the earlier state. *)
Theorem run_columns_quiet flags queryResult this :
  default false (verbose flags) = false ->
  columnsShown (snd (run flags queryResult this)) =
  [ "NamespacePrefix"; "Name"; "Id"; "Alias"; "Description"; "ContainerOptions" ].
Proof.
  intros Hv. unfold run. cbn [snd].
  now rewrite columnsShown_displayResults, Hv.
Qed.

(** X18. With the verbose flag the AppAnalyticsEnabled column is shown exactly
    when '59.0' is at most the api version in the order of strings, character
    by character: a version whose first character is below '5' (as in
    '100.0') hides the column, one whose first character is above '5' (as in
    '6.0') shows it. CreatedBy is the last column either way. *)
Theorem run_app_analytics_column flags queryResult this c rest :
  verbose flags = Some true ->
  apiVersion flags = String c rest ->
  let shown := columnsShown (snd (run flags queryResult this)) in
  (In "AppAnalyticsEnabled" shown <-> String.leb "59.0" (apiVersion flags) = true) /\
  (Ascii.nat_of_ascii c < 53 -> ~ In "AppAnalyticsEnabled" shown) /\
  (53 < Ascii.nat_of_ascii c -> In "AppAnalyticsEnabled" shown) /\
  last shown = Some "CreatedBy".
Proof.
  intros Hv Ha shown. subst shown. unfold run. cbn [snd].
  rewrite columnsShown_displayResults, Hv. cbn [default].
  assert (Hiff : forall b : bool,
            In "AppAnalyticsEnabled"
              ([ "NamespacePrefix"; "Name"; "Id"; "Alias"; "Description"; "ContainerOptions" ] ++
               [ "SubscriberPackageId"; "ConvertedFromPackageId"; "IsOrgDependent";
                 "PackageErrorUsername" ] ++
               (if b then [ "AppAnalyticsEnabled" ] else []) ++ [ "CreatedBy" ]) <-> b = true).
  { intros [|]; cbn; split; intros Hin; try reflexivity; try discriminate.
    - do 10 right. now left.
    - repeat (destruct Hin as [Hin|Hin]; [discriminate Hin|]). contradiction. }
  split; [apply Hiff|].
  assert (Hcmp : String.leb "59.0" (apiVersion flags) =
                 match N.compare 53 (Ascii.N_of_ascii c) with
                 | Eq => String.leb "9.0" rest
                 | Lt => true
                 | Gt => false
                 end).
  { rewrite Ha. unfold String.leb. cbn [String.compare]. unfold Ascii.compare.
    match goal with
    | |- context [N.compare ?x (Ascii.N_of_ascii c)] => change x with 53%N
    end.
    now destruct (N.compare 53 (Ascii.N_of_ascii c)). }
  pose proof (Hiff (String.leb "59.0" (apiVersion flags))) as Hshown.
  unfold Ascii.nat_of_ascii.
  split; [|split].
  - intros Hlt Hin. apply Hshown in Hin. rewrite Hcmp in Hin.
    replace (N.compare 53 (Ascii.N_of_ascii c)) with Gt in Hin; [discriminate Hin|].
    symmetry. apply N.compare_gt_iff. lia.
  - intros Hgt. apply Hshown. rewrite Hcmp.
    replace (N.compare 53 (Ascii.N_of_ascii c)) with Lt; [reflexivity|].
    symmetry. apply N.compare_lt_iff. lia.
  - now destruct (String.leb "59.0" (apiVersion flags)).
Qed.

(** X19. Listing is a homomorphism on the answer: for a fresh command, the
    entries for two answers put one after the other are the entries for the
    first followed by the entries for the second. *)
Theorem run_append flags records1 records2 :
  fst (run flags (Some (records1 ++ records2)) newCommand) =
  fst (run flags (Some records1) newCommand) ++ fst (run flags (Some records2) newCommand).
Proof. rewrite !run_results. now rewrite List.filter_app, List.map_app. Qed.

(** X20. A fresh command never lists more entries than it was given records,
    and it lists as many exactly when none of the records is deprecated. *)
Theorem run_length flags records :
  length (fst (run flags (Some records) newCommand)) <= length records /\
  (length (fst (run flags (Some records) newCommand)) = length records <->
   Forall (fun p => PackagingSObjects.IsDeprecated p = false) records).
Proof.
  rewrite run_results, length_map.
  induction records as [|p records [IHle IHiff]];
    [cbn; split; [lia|split; [constructor|reflexivity]]|].
  cbn [List.filter length].
  destruct (notDeprecated p) eqn:Hd; unfold notDeprecated in Hd; cbn [length].
  - apply negb_true_iff in Hd. split; [lia|]. split.
    + intros Hlen. constructor; [exact Hd|]. apply IHiff. lia.
    + intros Hall. inversion Hall; subst. f_equal. now apply IHiff.
  - apply negb_false_iff in Hd. split; [lia|]. split; [lia|].
    intros Hall. inversion Hall; congruence.
Qed.

(** X21. [mapRecordsToResults] replaces, it does not accumulate, and an empty
    or missing answer replaces nothing: after two answers in a row the
    results are those of the second when it has a record, and still those
    left by the first when it has none. The ux sink is not touched. *)
Theorem mapRecordsToResults_twice queryResult1 queryResult2 this :
  results (mapRecordsToResults queryResult2 (mapRecordsToResults queryResult1 this)) =
    match queryResult2 with
    | Some (p :: records) => List.map toResult (List.filter notDeprecated (p :: records))
    | _ => results (mapRecordsToResults queryResult1 this)
    end /\
  ux (mapRecordsToResults queryResult2 (mapRecordsToResults queryResult1 this)) = ux this.
Proof.
  split; [|now rewrite !mapRecordsToResults_ux].
  destruct queryResult2 as [[|p records]|]; [reflexivity| |reflexivity].
  apply mapRecordsToResults_nonempty.
Qed.

End ListExtras.

Section ListExtrasExamples.
Import Js PackageList Observations Fixtures.
#[local] Existing Instances englishMessages plainChalk project.

Lemma run_columns_quiet_witness :
  columnsShown (snd (run quiet (Some [ package "0Ho000000000001" "Managed" true false ])
                       newCommand)) =
  [ "NamespacePrefix"; "Name"; "Id"; "Alias"; "Description"; "ContainerOptions" ].
Proof.
  exact (run_columns_quiet quiet (Some [ package "0Ho000000000001" "Managed" true false ])
           newCommand eq_refl).
Defined.

Lemma run_app_analytics_column_witness :
  let flags := {| verbose := Some true; apiVersion := "100.0" |} in
  let shown := columnsShown (snd (run flags None newCommand)) in
  (In "AppAnalyticsEnabled" shown <-> String.leb "59.0" (apiVersion flags) = true) /\
  (Ascii.nat_of_ascii (Ascii.ascii_of_nat 49) < 53 -> ~ In "AppAnalyticsEnabled" shown) /\
  (53 < Ascii.nat_of_ascii (Ascii.ascii_of_nat 49) -> In "AppAnalyticsEnabled" shown) /\
  last shown = Some "CreatedBy".
Proof.
  exact (run_app_analytics_column {| verbose := Some true; apiVersion := "100.0" |}
           None newCommand (Ascii.ascii_of_nat 49) "00.0" eq_refl eq_refl).
Defined.

Example run_verbose_columns_100 :
  columnsShown (snd (run {| verbose := Some true; apiVersion := "100.0" |} None newCommand)) =
  [ "NamespacePrefix"; "Name"; "Id"; "Alias"; "Description"; "ContainerOptions";
    "SubscriberPackageId"; "ConvertedFromPackageId"; "IsOrgDependent";
    "PackageErrorUsername"; "CreatedBy" ].
Proof. reflexivity. Qed.

Example run_verbose_columns_59 :
  columnsShown (snd (run {| verbose := Some true; apiVersion := "59.0" |} None newCommand)) =
  [ "NamespacePrefix"; "Name"; "Id"; "Alias"; "Description"; "ContainerOptions";
    "SubscriberPackageId"; "ConvertedFromPackageId"; "IsOrgDependent";
    "PackageErrorUsername"; "AppAnalyticsEnabled"; "CreatedBy" ].
Proof. reflexivity. Qed.

End ListExtrasExamples.
